(** * Stock ledger and task lifecycle of the garden-maintenance backend

    A shallow embedding of the Mongoose models [Inventory],
    [InventoryTransaction] and [Task] and of the Express handlers
    [withdrawInventory], [restockInventory], [updateTask], [startTask],
    [completeTask] and [assignTask], followed by the properties of the
    ledger and of the task state machine.

    Conventions of the embedding:
    - a duration, a cost or a coordinate is a JavaScript [Number]: a
      binary64 double ([float]), with the arithmetic of IEEE 754;
    - a stock quantity is the exact rational ([Q]) that the stored double
      denotes: comparisons of doubles are exact, and so are their sums and
      differences on integers of magnitude at most [2^53]
      ([exact_operands]); the properties that give the value of a sum or
      of a difference are stated for such quantities, and
      [withdraw_double] and [restock_double] give the arithmetic of the
      ledger on the doubles themselves, rounding included;
    - a [Date] is its millisecond time stamp ([Z]); every [new Date()] of
      one request evaluates to the request's [now];
    - a string is held as its UTF-8 bytes; [length] counts its UTF-16 code
      units, as JavaScript does;
    - an [ObjectId] is a [positive]; a collection is a finite map from
      [_id] to document;
    - an [async] function is a state transformer over the database that
      either returns or throws; [await] is the bind of that monad and a
      handler's [try]/[catch] turns a throw into its 500 response;
    - request bodies are typed: a quantity is a number, an id is an id. *)

From Stdlib Require Import ZArith QArith Qpower Qround Qabs Lqa Lia List.
From Stdlib Require Import Floats.
From stdpp Require Import base option gmap strings list.

Local Open Scope Z_scope.

(** ** Primitive types *)

Definition ObjectId := positive.
Definition Date := Z.
Bind Scope positive_scope with ObjectId.
Bind Scope Z_scope with Date.

Definition Qlt_bool (x y : Q) : bool := negb (Qle_bool y x).

(** [24 * 60 * 60 * 1000] *)
Definition DAY_MS : Z := 24 * 60 * 60 * 1000.

(** *** Numbers

    The double nearest to an integer (ties to even): the conversion that a
    difference of two [Date]s goes through. *)
Definition Number_of_Z (z : Z) : float :=
  SF2Prim (binary_normalize prec emax z 0 false).

(** The rational that a finite double denotes. *)
Definition Number_value (x : float) : option Q :=
  match Prim2SF x with
  | S754_zero _ => Some 0%Q
  | S754_finite s m e => Some (inject_Z (cond_Zopp s (Z.pos m)) * 2 ^ e)%Q
  | _ => None
  end.




(** *** Strings

    [s.length]: one code unit for a code point of up to three bytes, two (a
    surrogate pair) for one of four bytes; a continuation byte counts for
    nothing. *)
Definition code_units (b : Ascii.ascii) : nat :=
  let n := Ascii.N_of_ascii b in
  if (n <? 128)%N then 1%nat
  else if (n <? 192)%N then 0%nat
  else if (n <? 240)%N then 1%nat
  else 2%nat.

Fixpoint String_length (s : string) : nat :=
  match s with
  | EmptyString => 0%nat
  | String b s => (code_units b + String_length s)%nat
  end.

(** ** Models *)

(** [models/Inventory.js]. *)
Inductive Unit := kg | liter | piece | bag | box | meter.

Record Quantity := mkQuantity {
  q_current : Q;
  q_minimum : Q;
  q_maximum : Q
}.

Record LowStockAlert := mkLowStockAlert {
  lsa_enabled : bool;
  lsa_lastAlertSent : option Date
}.

Record Inventory := mkInventory {
  inv_name : string;
  inv_unit : Unit;
  inv_quantity : Quantity;
  inv_lastRestocked : option Date;
  inv_isActive : bool;
  inv_lowStockAlert : LowStockAlert
}.

Definition current (it : Inventory) : Q := q_current (inv_quantity it).
Definition minimum (it : Inventory) : Q := q_minimum (inv_quantity it).
Definition maximum (it : Inventory) : Q := q_maximum (inv_quantity it).

Definition set_current (it : Inventory) (c : Q) : Inventory :=
  mkInventory (inv_name it) (inv_unit it)
    (mkQuantity c (minimum it) (maximum it))
    (inv_lastRestocked it) (inv_isActive it) (inv_lowStockAlert it).

Definition set_lastRestocked (it : Inventory) (d : Date) : Inventory :=
  mkInventory (inv_name it) (inv_unit it) (inv_quantity it)
    (Some d) (inv_isActive it) (inv_lowStockAlert it).

Definition set_lastAlertSent (it : Inventory) (d : Date) : Inventory :=
  mkInventory (inv_name it) (inv_unit it) (inv_quantity it)
    (inv_lastRestocked it) (inv_isActive it)
    (mkLowStockAlert (lsa_enabled (inv_lowStockAlert it)) (Some d)).

(** The [stockStatus] virtual. *)
Inductive StockStatus := out_of_stock | low_stock | overstocked | in_stock.

Definition stockStatus (it : Inventory) : StockStatus :=
  if Qeq_bool (current it) 0 then out_of_stock
  else if Qle_bool (current it) (minimum it) then low_stock
  else if Qle_bool (maximum it) (current it) then overstocked
  else in_stock.

(** [models/InventoryTransaction.js]. *)
Inductive TransactionType := withdrawal | return_ | restock_ | adjustment.

Record InventoryTransaction := mkInventoryTransaction {
  tx_inventory : ObjectId;
  tx_task : option ObjectId;
  tx_worker : ObjectId;
  tx_type : TransactionType;
  tx_quantity : Q;
  tx_unit : Unit;
  tx_previousQuantity : Q;
  tx_newQuantity : Q;
  tx_notes : option string;
  tx_confirmedBy : ObjectId;
  tx_confirmedAt : Date
}.

(** Modelled from the spec: the User schema ([models/User.js]) is not among
    the sources; the record holds the fields that the controllers read and
    write ([role], [isActive], [workerDetails.completedTasks]). *)
Inductive Role := admin | worker | client_role.

Record User := mkUser {
  u_role : Role;
  u_isActive : bool;
  u_completedTasks : Z
}.

(** [models/Client.js]: the task counters. *)
Record Client := mkClient {
  c_totalTasks : Z;
  c_completedTasks : Z
}.

(** [siteSchema] (in [models/Plant.js]): the task counters and [lastVisit]. *)
Record Site := mkSite {
  s_totalTasks : Z;
  s_completedTasks : Z;
  s_lastVisit : option Date
}.

(** [models/Task.js]. *)
Inductive Status :=
  pending | assigned | in_progress | completed | review | rejected.

Record Material := mkMaterial {
  m_item : option ObjectId;
  m_quantity : Q
}.

Record Coordinates := mkCoordinates {
  latitude : option float;
  longitude : option float
}.

Record Location := mkLocation {
  loc_coordinates : Coordinates;
  loc_timestamp : Date
}.

Record Cost := mkCost {
  cost_labor : float;
  cost_materials : float;
  cost_total : float
}.

Record Task := mkTask {
  t_client : ObjectId;
  t_site : option ObjectId;
  t_worker : option ObjectId;
  t_status : Status;
  t_actualDuration : float;
  t_startLocation : option Location;
  t_endLocation : option Location;
  t_materials : list Material;
  t_cost : Cost;
  t_startedAt : option Date;
  t_completedAt : option Date
}.

(** Calls of the notification service, in the order they were made. *)
Inductive Notice :=
| LowStockNotice (recipient : ObjectId) (item : ObjectId) (at_ : Date)
| TaskAssignmentNotice (recipient : ObjectId) (task : ObjectId) (at_ : Date)
| TaskCompletionNotice (recipient : ObjectId) (task : ObjectId) (at_ : Date).

(** ** The database *)

Record Db := mkDb {
  inventories : gmap ObjectId Inventory;
  transactions : list InventoryTransaction;
  users : gmap ObjectId User;
  clients : gmap ObjectId Client;
  sites : gmap ObjectId Site;
  tasks : gmap ObjectId Task;
  notices : list Notice
}.

Definition with_inventories (db : Db) (m : gmap ObjectId Inventory) : Db :=
  mkDb m (transactions db) (users db) (clients db) (sites db) (tasks db)
    (notices db).
Definition with_transactions (db : Db) (l : list InventoryTransaction) : Db :=
  mkDb (inventories db) l (users db) (clients db) (sites db) (tasks db)
    (notices db).
Definition with_users (db : Db) (m : gmap ObjectId User) : Db :=
  mkDb (inventories db) (transactions db) m (clients db) (sites db) (tasks db)
    (notices db).
Definition with_clients (db : Db) (m : gmap ObjectId Client) : Db :=
  mkDb (inventories db) (transactions db) (users db) m (sites db) (tasks db)
    (notices db).
Definition with_sites (db : Db) (m : gmap ObjectId Site) : Db :=
  mkDb (inventories db) (transactions db) (users db) (clients db) m (tasks db)
    (notices db).
Definition with_tasks (db : Db) (m : gmap ObjectId Task) : Db :=
  mkDb (inventories db) (transactions db) (users db) (clients db) (sites db) m
    (notices db).
Definition with_notices (db : Db) (l : list Notice) : Db :=
  mkDb (inventories db) (transactions db) (users db) (clients db) (sites db)
    (tasks db) l.

(** ** Asynchronous functions: state and exceptions *)

Inductive Outcome (A : Type) : Type :=
| Returned (a : A)
| Thrown (msg : string).
Arguments Returned {A} a.
Arguments Thrown {A} msg.

Definition Async (A : Type) : Type := Db -> Db * Outcome A.

Definition ret {A} (a : A) : Async A := fun db => (db, Returned a).
Definition throw {A} (msg : string) : Async A := fun db => (db, Thrown msg).
Definition await {A B} (m : Async A) (k : A -> Async B) : Async B :=
  fun db =>
    match m db with
    | (db', Returned a) => k a db'
    | (db', Thrown msg) => (db', Thrown msg)
    end.
Definition query {A} (f : Db -> A) : Async A := fun db => (db, Returned (f db)).
Definition update (f : Db -> Db) : Async () := fun db => (f db, Returned ()).

Declare Scope async_scope.
Delimit Scope async_scope with async.
Notation "x <- m ;; k" := (await m (fun x => k))
  (at level 100, m at next level, right associativity) : async_scope.
Notation "m ;; k" := (await m (fun _ => k))
  (at level 100, right associativity) : async_scope.

(** The JSON envelope of a response, with its HTTP status. *)
Record Response (A : Type) := mkResponse {
  res_status : Z;
  res_success : bool;
  res_message : string;
  res_data : option A
}.
Arguments mkResponse {A}.
Arguments res_status {A}.
Arguments res_success {A}.
Arguments res_message {A}.
Arguments res_data {A}.

(** [try { body } catch (error) { res.status(500).json(...) }] *)
Definition try_catch {A} (body : Async (Response A)) (message : string)
  : Db -> Db * Response A :=
  fun db =>
    match body db with
    | (db', Returned r) => (db', r)
    | (db', Thrown _) => (db', mkResponse 500 false message None)
    end.

(** ** Inventory documents *)

(** Validation run by [save()]: of the schema's validators only
    [quantity.current: { min: 0 }] depends on a field the ledger writes. *)
Definition Inventory_validate (it : Inventory) : bool :=
  Qle_bool 0 (current it).

Definition Inventory_save (id : ObjectId) (it : Inventory) : Async Inventory :=
  if Inventory_validate it
  then (update (fun db => with_inventories db (<[id := it]> (inventories db)));;
        ret it)%async
  else throw "Validation failed".

Definition Inventory_findById (id : ObjectId) : Async (option Inventory) :=
  query (fun db => inventories db !! id).

(** [inventorySchema.methods.deduct], on exact quantities ([withdraw_double]
    has the rounding of [this.quantity.current -= amount]). *)
Definition deduct (id : ObjectId) (this : Inventory) (amount : Q)
  : Async Inventory :=
  if Qlt_bool (current this) amount then throw "Insufficient stock"
  else Inventory_save id (set_current this (current this - amount)).

(** [inventorySchema.methods.restock], on exact quantities
    ([restock_double] has the rounding of
    [this.quantity.current += amount]). *)
Definition restock (id : ObjectId) (this : Inventory) (amount : Q) (now : Date)
  : Async Inventory :=
  Inventory_save id
    (set_lastRestocked (set_current this (current this + amount)) now).

(** [InventoryTransaction.create]: [notes] has [maxlength: 500], a bound on
    [notes.length]; the other paths are required and present by typing. *)
Definition InventoryTransaction_validate (tx : InventoryTransaction) : bool :=
  match tx_notes tx with
  | Some s => bool_decide (String_length s <= 500)%nat
  | None => true
  end.

Definition InventoryTransaction_create (tx : InventoryTransaction)
  : Async InventoryTransaction :=
  if InventoryTransaction_validate tx
  then (update (fun db => with_transactions db (transactions db ++ [tx]));;
        ret tx)%async
  else throw "Validation failed".

(** [User.findOne({ role: 'admin', isActive: true })] *)
Definition is_active_admin (u : User) : bool :=
  match u_role u with admin => u_isActive u | _ => false end.

Definition User_findOne_active_admin : Async (option (ObjectId * User)) :=
  query (fun db =>
    head (filter (fun p => is_active_admin (snd p) = true)
                 (map_to_list (users db)))).

(** [notifyLowStock]: every failure of a channel is caught inside, so the
    call always returns. *)
Definition notifyLowStock (adminId item : ObjectId) (now : Date) : Async bool :=
  (update (fun db =>
     with_notices db (notices db ++ [LowStockNotice adminId item now]));;
   ret true)%async.

(** ** Inventory controller *)

(** [req.user], set by the [protect] middleware. *)
Record AuthUser := mkAuthUser {
  au_id : ObjectId;
  au_role : Role
}.

Record WithdrawRequest := mkWithdrawRequest {
  wr_id : ObjectId;              (* req.params.id *)
  wr_user : AuthUser;            (* req.user *)
  wr_quantity : Q;               (* req.body.quantity *)
  wr_taskId : option ObjectId;   (* req.body.taskId *)
  wr_notes : option string;      (* req.body.notes *)
  wr_now : Date
}.

Record RestockRequest := mkRestockRequest {
  rr_id : ObjectId;
  rr_user : AuthUser;
  rr_quantity : Q;
  rr_notes : option string;
  rr_now : Date
}.

(** [!lastAlert || (now - lastAlert) > 24 * 60 * 60 * 1000] *)
Definition alert_due (lastAlert : option Date) (now : Date) : bool :=
  match lastAlert with
  | None => true
  | Some last => DAY_MS <? now - last
  end.

Definition withdrawInventory_body (rq : WithdrawRequest)
  : Async (Response Inventory) :=
  (found <- Inventory_findById (wr_id rq);;
   match found with
   | None => ret (mkResponse 404 false "Inventory item not found" None)
   | Some item =>
     if Qlt_bool (current item) (wr_quantity rq)
     then ret (mkResponse 400 false "Insufficient stock" None)
     else
       let previousQuantity := current item in
       item <- deduct (wr_id rq) item (wr_quantity rq);;
       InventoryTransaction_create
         (mkInventoryTransaction (wr_id rq) (wr_taskId rq)
            (au_id (wr_user rq)) withdrawal (wr_quantity rq) (inv_unit item)
            previousQuantity (current item) (wr_notes rq)
            (au_id (wr_user rq)) (wr_now rq));;
       item <-
         (if Qle_bool (current item) (minimum item)
             && lsa_enabled (inv_lowStockAlert item)
          then
            let now := wr_now rq in
            let lastAlert := lsa_lastAlertSent (inv_lowStockAlert item) in
            if alert_due lastAlert now
            then
              adm <- User_findOne_active_admin;;
              match adm with
              | Some (adminId, _) =>
                notifyLowStock adminId (wr_id rq) now;;
                Inventory_save (wr_id rq) (set_lastAlertSent item now)
              | None => ret item
              end
            else ret item
          else ret item);;
       ret (mkResponse 200 true "Inventory withdrawn successfully" (Some item))
   end)%async.

Definition withdrawInventory (rq : WithdrawRequest) (db : Db)
  : Db * Response Inventory :=
  try_catch (withdrawInventory_body rq) "Failed to withdraw inventory" db.

Definition restockInventory_body (rq : RestockRequest)
  : Async (Response Inventory) :=
  (found <- Inventory_findById (rr_id rq);;
   match found with
   | None => ret (mkResponse 404 false "Inventory item not found" None)
   | Some item =>
     let previousQuantity := current item in
     item <- restock (rr_id rq) item (rr_quantity rq) (rr_now rq);;
     InventoryTransaction_create
       (mkInventoryTransaction (rr_id rq) None
          (au_id (rr_user rq)) restock_ (rr_quantity rq) (inv_unit item)
          previousQuantity (current item) (rr_notes rq)
          (au_id (rr_user rq)) (rr_now rq));;
     ret (mkResponse 200 true "Inventory restocked successfully" (Some item))
   end)%async.

Definition restockInventory (rq : RestockRequest) (db : Db)
  : Db * Response Inventory :=
  try_catch (restockInventory_body rq) "Failed to restock inventory" db.

(** ** Task documents *)

Definition set_actualDuration (t : Task) (d : float) : Task :=
  mkTask (t_client t) (t_site t) (t_worker t) (t_status t) d
    (t_startLocation t) (t_endLocation t) (t_materials t) (t_cost t)
    (t_startedAt t) (t_completedAt t).

Definition set_cost_total (t : Task) (total : float) : Task :=
  mkTask (t_client t) (t_site t) (t_worker t) (t_status t)
    (t_actualDuration t) (t_startLocation t) (t_endLocation t)
    (t_materials t)
    (mkCost (cost_labor (t_cost t)) (cost_materials (t_cost t)) total)
    (t_startedAt t) (t_completedAt t).

(** The integer nearest to the double [(-1)^s * m * 2^e], a tie going
    up: [floor (x + 1/2)], computed on the integers. *)
Definition nearest_integer (s : bool) (m : positive) (e : Z) : Z :=
  let n := cond_Zopp s (Z.pos m) in
  if 0 <=? e then n * 2 ^ e else (2 * n + 2 ^ (- e)) / 2 ^ (1 - e).

(** [Math.round]: NaN, the infinities and the zeros are returned as they
    are; a finite [x] gives the integer nearest to it, a tie going up, and
    [-0] when that integer is zero and [x] is negative. *)
Definition Math_round (x : float) : float :=
  match Prim2SF x with
  | S754_finite s m e =>
    let k := nearest_integer s m e in
    if k =? 0 then (if s then (-0)%float else 0%float) else Number_of_Z k
  | _ => x
  end.

(** [(this.completedAt - this.startedAt) / (1000 * 60 * 60)]: the two time
    stamps are integers below [2^53], so that the double difference is the
    double nearest to their exact difference. *)
Definition duration_hours (startedAt completedAt : Date) : float :=
  (Number_of_Z (completedAt - startedAt) / (1000 * 60 * 60))%float.

(** [taskSchema.pre('save')] *)
Definition Task_pre_save (this : Task) : Task :=
  let this :=
    match t_startedAt this, t_completedAt this with
    | Some startedAt, Some completedAt =>
      let duration := duration_hours startedAt completedAt in
      set_actualDuration this (Math_round (duration * 100) / 100)%float
    | _, _ => this
    end in
  set_cost_total this
    (cost_labor (t_cost this) + cost_materials (t_cost this))%float.

(** [task.save()]: the hook, then the write.  The stored document is taken
    to satisfy the schema's [required] and [enum] validators. *)
Definition Task_save (id : ObjectId) (t : Task) : Async Task :=
  let t := Task_pre_save t in
  (update (fun db => with_tasks db (<[id := t]> (tasks db)));; ret t)%async.

Definition Task_findById (id : ObjectId) : Async (option Task) :=
  query (fun db => tasks db !! id).

Definition User_findById (id : option ObjectId) : Async (option User) :=
  query (fun db => match id with Some i => users db !! i | None => None end).

(** [req.body] of [PUT /tasks/:id]: an absent field is [None]; [worker]
    may also be sent as [null], which is [Some None]. *)
Record TaskPatch := mkTaskPatch {
  p_worker : option (option ObjectId);
  p_status : option Status;
  p_actualDuration : option float;
  p_completedAt : option Date
}.

Definition patch_set_status (b : TaskPatch) (s : Status) : TaskPatch :=
  mkTaskPatch (p_worker b) (Some s) (p_actualDuration b) (p_completedAt b).

Definition patch_set_completedAt (b : TaskPatch) (d : Date) : TaskPatch :=
  mkTaskPatch (p_worker b) (p_status b) (p_actualDuration b) (Some d).

Definition or_else {A} (o : option A) (a : A) : A :=
  match o with Some x => x | None => a end.

Definition apply_patch (b : TaskPatch) (t : Task) : Task :=
  mkTask (t_client t) (t_site t)
    (or_else (p_worker b) (t_worker t))
    (or_else (p_status b) (t_status t))
    (or_else (p_actualDuration b) (t_actualDuration t))
    (t_startLocation t) (t_endLocation t) (t_materials t) (t_cost t)
    (t_startedAt t)
    (match p_completedAt b with Some d => Some d | None => t_completedAt t end).

(** [Task.findByIdAndUpdate(id, body, { new: true, runValidators: true })]:
    an update, not a [save]: the [pre('save')] hook does not run. *)
Definition Task_findByIdAndUpdate (id : ObjectId) (b : TaskPatch)
  : Async (option Task) :=
  (update (fun db => with_tasks db (alter (apply_patch b) id (tasks db)));;
   Task_findById id)%async.

(** [$inc: { completedTasks: 1 }] on the three counter holders. *)
Definition Client_inc_completedTasks (id : ObjectId) : Async () :=
  update (fun db => with_clients db
    (alter (fun c => mkClient (c_totalTasks c) (c_completedTasks c + 1))
       id (clients db))).

Definition User_inc_completedTasks (id : ObjectId) : Async () :=
  update (fun db => with_users db
    (alter (fun u => mkUser (u_role u) (u_isActive u) (u_completedTasks u + 1))
       id (users db))).

Definition Site_inc_completedTasks (id : ObjectId) (now : Date) : Async () :=
  update (fun db => with_sites db
    (alter (fun s => mkSite (s_totalTasks s) (s_completedTasks s + 1) (Some now))
       id (sites db))).

(** [notifyTaskAssignment], [notifyTaskCompletion]: like [notifyLowStock]
    they catch every failure of a channel. *)
Definition notifyTaskAssignment (workerId taskId : ObjectId) (now : Date)
  : Async bool :=
  (update (fun db =>
     with_notices db (notices db ++ [TaskAssignmentNotice workerId taskId now]));;
   ret true)%async.

Definition notifyTaskCompletion (clientId taskId : ObjectId) (now : Date)
  : Async bool :=
  (update (fun db =>
     with_notices db (notices db ++ [TaskCompletionNotice clientId taskId now]));;
   ret true)%async.

(** ** Task controller *)

Record UpdateTaskRequest := mkUpdateTaskRequest {
  ut_id : ObjectId;
  ut_user : AuthUser;
  ut_body : TaskPatch;
  ut_now : Date
}.

(** [POST /tasks/:id/start] and [POST /tasks/:id/complete] *)
Record WorkerActionRequest := mkWorkerActionRequest {
  wa_id : ObjectId;
  wa_user : AuthUser;
  wa_coordinates : Coordinates;   (* { latitude, longitude } = req.body *)
  wa_now : Date
}.

Record AssignTaskRequest := mkAssignTaskRequest {
  at_id : ObjectId;
  at_user : AuthUser;
  at_workerId : option ObjectId;  (* req.body.workerId *)
  at_now : Date
}.

Definition is_worker_role (r : Role) : bool :=
  match r with worker => true | _ => false end.

Definition is_completed (s : Status) : bool :=
  match s with completed => true | _ => false end.

(** [task.worker?.toString() !== req.user.id] *)
Definition worker_differs (w : option ObjectId) (uid : ObjectId) : bool :=
  match w with
  | Some w => negb (Pos.eqb w uid)
  | None => true
  end.

(** The body of [for (const material of task.materials)]. *)
Definition deduct_material (material : Material) : Async () :=
  match m_item material with
  | Some item =>
    (inventoryItem <- Inventory_findById item;;
     match inventoryItem with
     | Some it => (deduct item it (m_quantity material);; ret ())
     | None => ret ()
     end)%async
  | None => ret ()
  end.

Fixpoint deduct_materials (materials : list Material) : Async () :=
  match materials with
  | [] => ret ()
  | material :: rest =>
    (deduct_material material;; deduct_materials rest)%async
  end.

Definition updateTask_body (rq : UpdateTaskRequest) : Async (Response Task) :=
  (found <- Task_findById (ut_id rq);;
   match found with
   | None => ret (mkResponse 404 false "Task not found" None)
   | Some task =>
     if is_worker_role (au_role (ut_user rq))
        && worker_differs (t_worker task) (au_id (ut_user rq))
     then ret (mkResponse 403 false "Not authorized to update this task" None)
     else
       body <-
         (match p_worker (ut_body rq), t_worker task with
          | Some (Some _), None =>
            deduct_materials (t_materials task);;
            ret (patch_set_status (ut_body rq) assigned)
          | _, _ => ret (ut_body rq)
          end);;
       body <-
         (if match p_status body with Some s => is_completed s | None => false end
             && negb (is_completed (t_status task))
          then
            let body := patch_set_completedAt body (ut_now rq) in
            Client_inc_completedTasks (t_client task);;
            match t_worker task with
            | Some w => User_inc_completedTasks w
            | None => ret ()
            end;;
            match t_site task with
            | Some s => Site_inc_completedTasks s (ut_now rq)
            | None => ret ()
            end;;
            ret body
          else ret body);;
       task <- Task_findByIdAndUpdate (ut_id rq) body;;
       ret (mkResponse 200 true "Task updated successfully" task)
   end)%async.

Definition updateTask (rq : UpdateTaskRequest) (db : Db) : Db * Response Task :=
  try_catch (updateTask_body rq) "Server error" db.

Definition set_started (t : Task) (c : Coordinates) (now : Date) : Task :=
  mkTask (t_client t) (t_site t) (t_worker t) in_progress
    (t_actualDuration t) (Some (mkLocation c now)) (t_endLocation t)
    (t_materials t) (t_cost t) (Some now) (t_completedAt t).

Definition set_completed (t : Task) (c : Coordinates) (now : Date) : Task :=
  mkTask (t_client t) (t_site t) (t_worker t) completed
    (t_actualDuration t) (t_startLocation t) (Some (mkLocation c now))
    (t_materials t) (t_cost t) (t_startedAt t) (Some now).

Definition set_assigned (t : Task) (w : ObjectId) : Task :=
  mkTask (t_client t) (t_site t) (Some w) assigned
    (t_actualDuration t) (t_startLocation t) (t_endLocation t)
    (t_materials t) (t_cost t) (t_startedAt t) (t_completedAt t).

(** [task.worker.toString()] throws a [TypeError] on a [null] worker. *)
Definition worker_toString (w : option ObjectId) : Async ObjectId :=
  match w with
  | Some w => ret w
  | None => throw "Cannot read properties of null (reading 'toString')"
  end.

Definition startTask_body (rq : WorkerActionRequest) : Async (Response Task) :=
  (found <- Task_findById (wa_id rq);;
   match found with
   | None => ret (mkResponse 404 false "Task not found" None)
   | Some task =>
     w <- worker_toString (t_worker task);;
     if negb (Pos.eqb w (au_id (wa_user rq)))
     then ret (mkResponse 403 false "Not authorized" None)
     else
       task <- Task_save (wa_id rq)
                 (set_started task (wa_coordinates rq) (wa_now rq));;
       ret (mkResponse 200 true "Task started successfully" (Some task))
   end)%async.

Definition startTask (rq : WorkerActionRequest) (db : Db) : Db * Response Task :=
  try_catch (startTask_body rq) "Server error" db.

Definition completeTask_body (rq : WorkerActionRequest) : Async (Response Task) :=
  (found <- Task_findById (wa_id rq);;
   match found with
   | None => ret (mkResponse 404 false "Task not found" None)
   | Some task =>
     w <- worker_toString (t_worker task);;
     if negb (Pos.eqb w (au_id (wa_user rq)))
     then ret (mkResponse 403 false "Not authorized" None)
     else
       task <- Task_save (wa_id rq)
                 (set_completed task (wa_coordinates rq) (wa_now rq));;
       ret (mkResponse 200 true "Task completed successfully" (Some task))
   end)%async.

Definition completeTask (rq : WorkerActionRequest) (db : Db)
  : Db * Response Task :=
  try_catch (completeTask_body rq) "Server error" db.

Definition assignTask_body (rq : AssignTaskRequest) : Async (Response Task) :=
  (found <- Task_findById (at_id rq);;
   match found with
   | None => ret (mkResponse 404 false "Task not found" None)
   | Some task =>
     w <- User_findById (at_workerId rq);;
     match at_workerId rq, w with
     | Some workerId, Some wk =>
       if negb (is_worker_role (u_role wk))
       then ret (mkResponse 404 false "Worker not found" None)
       else
         task <- Task_save (at_id rq) (set_assigned task workerId);;
         notifyTaskAssignment workerId (at_id rq) (at_now rq);;
         ret (mkResponse 200 true "Task assigned successfully" (Some task))
     | _, _ => ret (mkResponse 404 false "Worker not found" None)
     end
   end)%async.

Definition assignTask (rq : AssignTaskRequest) (db : Db) : Db * Response Task :=
  try_catch (assignTask_body rq) "Failed to assign task" db.


(** * Further handlers *)

(** ** Inventory controller: listing, reading and deleting *)

(** The strings that the [stockStatus] virtual returns. *)
Definition StockStatus_name (s : StockStatus) : string :=
  match s with
  | out_of_stock => "out-of-stock"
  | low_stock => "low-stock"
  | overstocked => "overstocked"
  | in_stock => "in-stock"
  end.

(** The predicate that [getInventoryItems] hands to [items.filter] when
    the query carries a [stockStatus]. *)
Definition stockStatus_filter (stockStatus : string) (item : Inventory) : bool :=
  let current := current item in
  let minimum := minimum item in
  let maximum := maximum item in
  if String.eqb stockStatus "out-of-stock" then Qeq_bool current 0
  else if String.eqb stockStatus "low-stock"
       then Qlt_bool 0 current && Qle_bool current minimum
  else if String.eqb stockStatus "in-stock"
       then Qlt_bool minimum current && Qlt_bool current maximum
  else if String.eqb stockStatus "overstocked" then Qle_bool maximum current
  else true.

Definition getInventoryItem_body (id : ObjectId) : Async (Response Inventory) :=
  (found <- Inventory_findById id;;
   match found with
   | None => ret (mkResponse 404 false "Inventory item not found" None)
   | Some item => ret (mkResponse 200 true "" (Some item))
   end)%async.

Definition getInventoryItem (id : ObjectId) (db : Db) : Db * Response Inventory :=
  try_catch (getInventoryItem_body id) "Failed to fetch inventory item" db.

(** [item.deleteOne()] *)
Definition Inventory_deleteOne (id : ObjectId) : Async () :=
  update (fun db => with_inventories db (delete id (inventories db))).

Definition deleteInventoryItem_body (id : ObjectId)
  : Async (Response Inventory) :=
  (found <- Inventory_findById id;;
   match found with
   | None => ret (mkResponse 404 false "Inventory item not found" None)
   | Some item =>
     Inventory_deleteOne id;;
     ret (mkResponse 200 true "Inventory item deleted successfully" None)
   end)%async.

Definition deleteInventoryItem (id : ObjectId) (db : Db)
  : Db * Response Inventory :=
  try_catch (deleteInventoryItem_body id) "Failed to delete inventory item" db.

(** The envelope of a list: [{ success, count, data }]. *)
Record ListResponse (A : Type) := mkListResponse {
  lr_status : Z;
  lr_success : bool;
  lr_count : nat;
  lr_data : list A
}.
Arguments mkListResponse {A}.
Arguments lr_status {A}.
Arguments lr_success {A}.
Arguments lr_count {A}.
Arguments lr_data {A}.

(** [InventoryTransaction.find({ inventory: id }).sort('-createdAt')]: the
    collection is kept in the order of creation, so the newest record
    first is the matching records in reverse. *)
Definition InventoryTransaction_find_newest_first (id : ObjectId) (db : Db)
  : list InventoryTransaction :=
  rev (List.filter (fun tx => Pos.eqb (tx_inventory tx) id) (transactions db)).

Definition getInventoryTransactions (id : ObjectId) (db : Db)
  : Db * ListResponse InventoryTransaction :=
  let transactions := InventoryTransaction_find_newest_first id db in
  (db, mkListResponse 200 true (length transactions) transactions).

(** ** Task controller: deleting *)

(** [task.deleteOne()] *)
Definition Task_deleteOne (id : ObjectId) : Async () :=
  update (fun db => with_tasks db (delete id (tasks db))).

Definition deleteTask_body (id : ObjectId) : Async (Response Task) :=
  (found <- Task_findById id;;
   match found with
   | None => ret (mkResponse 404 false "Task not found" None)
   | Some task =>
     Task_deleteOne id;;
     ret (mkResponse 200 true "Task deleted successfully" None)
   end)%async.

Definition deleteTask (id : ObjectId) (db : Db) : Db * Response Task :=
  try_catch (deleteTask_body id) "Server error" db.

(** ** Authentication and authorization middleware *)

(** What [verifyToken] decodes from a bearer token. *)
Inductive DecodedToken :=
| ClientToken (clientId taskId : ObjectId)
| UserToken (id : ObjectId).

(** The [Authorization] header as [protect] sees it: no bearer token, a
    token that [verifyToken] rejects, or a token with its decoded payload. *)
Inductive Bearer :=
| NoToken
| BadToken
| Token (decoded : DecodedToken).

(** What [protect] leaves on the request: [req.client] with
    [req.userType = 'client'], or [req.user] with [req.userType = 'user']. *)
Inductive Principal :=
| ClientPrincipal (clientId : ObjectId)
| UserPrincipal (user : AuthUser).

Definition Role_name (r : Role) : string :=
  match r with
  | admin => "admin"
  | worker => "worker"
  | client_role => "client"
  end.

Definition Role_eqb (r1 r2 : Role) : bool :=
  match r1, r2 with
  | admin, admin | worker, worker | client_role, client_role => true
  | _, _ => false
  end.

(** [protect]: a response ends the request, a principal lets it go on. *)
Definition protect {A} (b : Bearer) (db : Db) : Response A + Principal :=
  match b with
  | NoToken =>
    inl (mkResponse 401 false "Not authorized to access this route" None)
  | BadToken => inl (mkResponse 401 false "Invalid or expired token" None)
  | Token (ClientToken clientId _) => inr (ClientPrincipal clientId)
  | Token (UserToken id) =>
    match users db !! id with
    | None => inl (mkResponse 401 false "User not found" None)
    | Some u =>
      if negb (u_isActive u)
      then inl (mkResponse 401 false "User account is deactivated" None)
      else inr (UserPrincipal (mkAuthUser id (u_role u)))
    end
  end.

(** [authorize(...roles)]: a response ends the request; otherwise
    [req.user] is there and its role is one of [roles]. *)
Definition authorize {A} (roles : list Role) (p : Principal)
  : Response A + AuthUser :=
  match p with
  | ClientPrincipal _ =>
    inl (mkResponse 403 false "Clients are not authorized for this action" None)
  | UserPrincipal u =>
    if existsb (Role_eqb (au_role u)) roles then inr u
    else inl (mkResponse 403 false
                ("User role '" ++ Role_name (au_role u)
                 ++ "' is not authorized to access this route") None)
  end.

(** A route [protect, authorize(...roles), handler]. *)
Definition guarded {A} (roles : list Role)
    (handler : AuthUser -> Db -> Db * Response A) (b : Bearer) (db : Db)
  : Db * Response A :=
  match protect b db with
  | inl r => (db, r)
  | inr p =>
    match authorize roles p with
    | inl r => (db, r)
    | inr u => handler u db
    end
  end.

(** A route [protect, handler]: with a client token the handler runs
    without [req.user]. *)
Definition protected {A} (handler : AuthUser -> Db -> Db * Response A)
    (without_user : Db -> Db * Response A) (b : Bearer) (db : Db)
  : Db * Response A :=
  match protect b db with
  | inl r => (db, r)
  | inr (UserPrincipal u) => handler u db
  | inr (ClientPrincipal _) => without_user db
  end.

(** [updateTask], [startTask] and [completeTask] when [req.user] is
    [undefined]: after the 404 of a missing task, reading [req.user.role]
    or [req.user.id] (or [task.worker.toString()] on a null worker) throws
    a [TypeError] inside the [try]. *)
Definition task_handler_without_user (id : ObjectId) (db : Db)
  : Db * Response Task :=
  try_catch
    (found <- Task_findById id;;
     match found with
     | None => ret (mkResponse 404 false "Task not found" None)
     | Some _ => throw "Cannot read properties of undefined"
     end)%async
    "Server error" db.


Definition rr_with_user (rq : RestockRequest) (u : AuthUser) : RestockRequest :=
  mkRestockRequest (rr_id rq) u (rr_quantity rq) (rr_notes rq) (rr_now rq).

Definition ut_with_user (rq : UpdateTaskRequest) (u : AuthUser)
  : UpdateTaskRequest :=
  mkUpdateTaskRequest (ut_id rq) u (ut_body rq) (ut_now rq).

Definition wa_with_user (rq : WorkerActionRequest) (u : AuthUser)
  : WorkerActionRequest :=
  mkWorkerActionRequest (wa_id rq) u (wa_coordinates rq) (wa_now rq).

Definition at_with_user (rq : AssignTaskRequest) (u : AuthUser)
  : AssignTaskRequest :=
  mkAssignTaskRequest (at_id rq) u (at_workerId rq) (at_now rq).


Definition route_restock (b : Bearer) (rq : RestockRequest) :=
  guarded [admin] (fun u => restockInventory (rr_with_user rq u)) b.

Definition route_deleteInventoryItem (b : Bearer) (id : ObjectId) :=
  guarded [admin] (fun _ => deleteInventoryItem id) b.

(** The task routes. *)
Definition route_updateTask (b : Bearer) (rq : UpdateTaskRequest) :=
  protected (fun u => updateTask (ut_with_user rq u))
    (task_handler_without_user (ut_id rq)) b.

Definition route_startTask (b : Bearer) (rq : WorkerActionRequest) :=
  protected (fun u => startTask (wa_with_user rq u))
    (task_handler_without_user (wa_id rq)) b.

Definition route_completeTask (b : Bearer) (rq : WorkerActionRequest) :=
  protected (fun u => completeTask (wa_with_user rq u))
    (task_handler_without_user (wa_id rq)) b.

Definition route_assignTask (b : Bearer) (rq : AssignTaskRequest) :=
  guarded [admin] (fun u => assignTask (at_with_user rq u)) b.

Definition route_deleteTask (b : Bearer) (id : ObjectId) :=
  guarded [admin] (fun _ => deleteTask id) b.

(** * Vocabulary of the properties *)

(** ** The outcomes of a withdrawal *)

Definition withdrawal_record (rq : WithdrawRequest) (item : Inventory)
  : InventoryTransaction :=
  mkInventoryTransaction (wr_id rq) (wr_taskId rq) (au_id (wr_user rq))
    withdrawal (wr_quantity rq) (inv_unit item) (current item)
    (current item - wr_quantity rq) (wr_notes rq) (au_id (wr_user rq))
    (wr_now rq).

Definition notes_ok (notes : option string) : bool :=
  match notes with
  | Some s => bool_decide (String_length s <= 500)%nat
  | None => true
  end.

Definition alert_wanted (item : Inventory) (now : Date) : bool :=
  Qle_bool (current item) (minimum item)
  && lsa_enabled (inv_lowStockAlert item)
  && alert_due (lsa_lastAlertSent (inv_lowStockAlert item)) now.

Inductive withdraw_outcome (rq : WithdrawRequest) (db : Db)
  : Db -> Response Inventory -> Prop :=
| wo_not_found :
    inventories db !! wr_id rq = None ->
    withdraw_outcome rq db db
      (mkResponse 404 false "Inventory item not found" None)
| wo_insufficient item :
    inventories db !! wr_id rq = Some item ->
    (current item < wr_quantity rq)%Q ->
    withdraw_outcome rq db db (mkResponse 400 false "Insufficient stock" None)
| wo_record_rejected item :
    inventories db !! wr_id rq = Some item ->
    (wr_quantity rq <= current item)%Q ->
    notes_ok (wr_notes rq) = false ->
    withdraw_outcome rq db
      (with_inventories db
         (<[wr_id rq := set_current item (current item - wr_quantity rq)]>
            (inventories db)))
      (mkResponse 500 false "Failed to withdraw inventory" None)
| wo_done_quiet item :
    inventories db !! wr_id rq = Some item ->
    (wr_quantity rq <= current item)%Q ->
    notes_ok (wr_notes rq) = true ->
    let item' := set_current item (current item - wr_quantity rq) in
    alert_wanted item' (wr_now rq) = false
    \/ head (filter (fun p => is_active_admin (snd p) = true)
                    (map_to_list (users db))) = None ->
    withdraw_outcome rq db
      (mkDb (<[wr_id rq := item']> (inventories db))
         (transactions db ++ [withdrawal_record rq item])
         (users db) (clients db) (sites db) (tasks db) (notices db))
      (mkResponse 200 true "Inventory withdrawn successfully" (Some item'))
| wo_done_alert item adminId adm :
    inventories db !! wr_id rq = Some item ->
    (wr_quantity rq <= current item)%Q ->
    notes_ok (wr_notes rq) = true ->
    let item' := set_current item (current item - wr_quantity rq) in
    alert_wanted item' (wr_now rq) = true ->
    head (filter (fun p => is_active_admin (snd p) = true)
                 (map_to_list (users db))) = Some (adminId, adm) ->
    withdraw_outcome rq db
      (mkDb (<[wr_id rq := set_lastAlertSent item' (wr_now rq)]> (inventories db))
         (transactions db ++ [withdrawal_record rq item])
         (users db) (clients db) (sites db) (tasks db)
         (notices db ++ [LowStockNotice adminId (wr_id rq) (wr_now rq)]))
      (mkResponse 200 true "Inventory withdrawn successfully"
         (Some (set_lastAlertSent item' (wr_now rq)))).

(** ** The outcomes of a restock *)

Definition restock_record (rq : RestockRequest) (item : Inventory)
  : InventoryTransaction :=
  mkInventoryTransaction (rr_id rq) None (au_id (rr_user rq))
    restock_ (rr_quantity rq) (inv_unit item) (current item)
    (current item + rr_quantity rq) (rr_notes rq) (au_id (rr_user rq))
    (rr_now rq).

Definition restocked_item (rq : RestockRequest) (item : Inventory) : Inventory :=
  set_lastRestocked (set_current item (current item + rr_quantity rq))
    (rr_now rq).

Inductive restock_outcome (rq : RestockRequest) (db : Db)
  : Db -> Response Inventory -> Prop :=
| ro_not_found :
    inventories db !! rr_id rq = None ->
    restock_outcome rq db db
      (mkResponse 404 false "Inventory item not found" None)
| ro_save_rejected item :
    inventories db !! rr_id rq = Some item ->
    (current item + rr_quantity rq < 0)%Q ->
    restock_outcome rq db db
      (mkResponse 500 false "Failed to restock inventory" None)
| ro_record_rejected item :
    inventories db !! rr_id rq = Some item ->
    (0 <= current item + rr_quantity rq)%Q ->
    notes_ok (rr_notes rq) = false ->
    restock_outcome rq db
      (with_inventories db
         (<[rr_id rq := restocked_item rq item]> (inventories db)))
      (mkResponse 500 false "Failed to restock inventory" None)
| ro_done item :
    inventories db !! rr_id rq = Some item ->
    (0 <= current item + rr_quantity rq)%Q ->
    notes_ok (rr_notes rq) = true ->
    restock_outcome rq db
      (mkDb (<[rr_id rq := restocked_item rq item]> (inventories db))
         (transactions db ++ [restock_record rq item])
         (users db) (clients db) (sites db) (tasks db) (notices db))
      (mkResponse 200 true "Inventory restocked successfully"
         (Some (restocked_item rq item))).

(** ** Ledger requests and their sequences *)

Inductive LedgerRequest :=
| Withdraw (rq : WithdrawRequest)
| Restock (rq : RestockRequest).

Definition ledger_id (op : LedgerRequest) : ObjectId :=
  match op with Withdraw rq => wr_id rq | Restock rq => rr_id rq end.

Definition ledger_quantity (op : LedgerRequest) : Q :=
  match op with Withdraw rq => wr_quantity rq | Restock rq => rr_quantity rq end.

Definition ledger_type (op : LedgerRequest) : TransactionType :=
  match op with Withdraw _ => withdrawal | Restock _ => restock_ end.

Definition ledger_now (op : LedgerRequest) : Date :=
  match op with Withdraw rq => wr_now rq | Restock rq => rr_now rq end.

Definition ledger_notes (op : LedgerRequest) : option string :=
  match op with Withdraw rq => wr_notes rq | Restock rq => rr_notes rq end.

(** The quantity that a successful request leaves, from the one it found. *)
Definition ledger_result (op : LedgerRequest) (previous : Q) : Q :=
  match op with
  | Withdraw rq => previous - wr_quantity rq
  | Restock rq => previous + rr_quantity rq
  end.

Definition ledger_step (op : LedgerRequest) (db : Db) : Db * Response Inventory :=
  match op with
  | Withdraw rq => withdrawInventory rq db
  | Restock rq => restockInventory rq db
  end.

Definition successful {A} (res : Response A) : Prop := res_status res = 200.

Fixpoint ledger_final (ops : list LedgerRequest) (db : Db) : Db :=
  match ops with
  | [] => db
  | op :: ops => ledger_final ops (fst (ledger_step op db))
  end.







(** ** The ledger's arithmetic on doubles *)

(** [quantity.current] after a withdrawal of [quantity], on the doubles
    that the database stores: nothing when the guard of the handler (and of
    [deduct]) refuses the request or when the validator [min: 0] rejects
    the difference. *)
Definition withdraw_double (current quantity : float) : option float :=
  if (current <? quantity)%float then None
  else
    let current := (current - quantity)%float in
    if (0 <=? current)%float then Some current else None.

(** [quantity.current] after a restock of [quantity]. *)
Definition restock_double (current quantity : float) : option float :=
  let current := (current + quantity)%float in
  if (0 <=? current)%float then Some current else None.

(** ** The log of low-stock notices *)

(** The times of the low-stock notices sent for item [i]. *)
Fixpoint alert_times (i : ObjectId) (l : list Notice) : list Date :=
  match l with
  | [] => []
  | LowStockNotice _ j t :: l =>
    if Pos.eqb j i then t :: alert_times i l else alert_times i l
  | _ :: l => alert_times i l
  end.

(** [lowStockAlert.lastAlertSent] of the stored item [i]. *)
Definition last_alert (db : Db) (i : ObjectId) : option Date :=
  match inventories db !! i with
  | Some it => lsa_lastAlertSent (inv_lowStockAlert it)
  | None => None
  end.

(** Each time is more than 24 hours after the one before it, the first one
    after [last] when there is one. *)
Fixpoint spaced_from (last : option Date) (l : list Date) : Prop :=
  match l with
  | [] => True
  | t :: l =>
    match last with Some a => DAY_MS < t - a | None => True end
    /\ spaced_from (Some t) l
  end.

(** The closed window of 24 hours that starts at [t]. *)
Definition in_window (t x : Date) : bool := (t <=? x) && (x <=? t + DAY_MS).

(** The notices appended to the log while [ops] ran. *)
Definition sent_during (ops : list LedgerRequest) (db : Db) : list Notice :=
  drop (length (notices db)) (notices (ledger_final ops db)).

(** ** Durations and declared materials *)

(** The value that the hook stores when both time stamps are present. *)
Definition rounded_duration (startedAt completedAt : Date) : float :=
  (Math_round (duration_hours startedAt completedAt * 100) / 100)%float.

(** [x] is the double of the integer [k]; a zero may carry the sign of the
    number that was rounded to it. *)
Definition integral_double (x : float) (k : Z) : Prop :=
  x = Number_of_Z k \/ (k = 0 /\ x = (-0)%float).

(** The quantity that the material lines of a task declare for item [i]. *)
Fixpoint declared (i : ObjectId) (materials : list Material) : Q :=
  match materials with
  | [] => 0
  | material :: rest =>
    match m_item material with
    | Some j => if Pos.eqb j i then m_quantity material else 0
    | None => 0
    end + declared i rest
  end.



(** Only the inventory collection differs. *)
Definition only_inventories_differ (db db' : Db) : Prop :=
  transactions db' = transactions db /\ users db' = users db /\
  clients db' = clients db /\ sites db' = sites db /\
  tasks db' = tasks db /\ notices db' = notices db.

(** ** Counting records and answers *)

(** The records of item [i] in the log, oldest first. *)
Definition records_of (i : ObjectId) (db : Db) : list InventoryTransaction :=
  List.filter (fun tx => Pos.eqb (tx_inventory tx) i) (transactions db).

(** How many requests on item [i] of a sequence were answered 200. *)
Fixpoint successes (i : ObjectId) (ops : list LedgerRequest) (db : Db) : nat :=
  match ops with
  | [] => 0
  | op :: ops =>
    let answered_200 :=
      Pos.eqb (ledger_id op) i
      && Z.eqb (res_status (snd (ledger_step op db))) 200 in
    ((if answered_200 then 1 else 0)
     + successes i ops (fst (ledger_step op db)))%nat
  end.

(** Some stored user is an active administrator. *)
Definition has_active_admin (db : Db) : Prop :=
  exists id u, users db !! id = Some u /\ is_active_admin u = true.

(** ** Who may update a task *)

(** The caller passes the check of [updateTask]: not of role [worker], or
    the worker of the task. *)
Definition may_update (u : AuthUser) (task : Task) : Prop :=
  au_role u <> worker \/ t_worker task = Some (au_id u).

(** ** The two steps of [updateTask] *)

(** The step "if assigning worker, deduct materials": the body that goes
    on to the next step. *)
Definition updateTask_assign (rq : UpdateTaskRequest) (task : Task)
  : Async TaskPatch :=
  match p_worker (ut_body rq), t_worker task with
  | Some (Some _), None =>
    (deduct_materials (t_materials task);;
     ret (patch_set_status (ut_body rq) assigned))%async
  | _, _ => ret (ut_body rq)
  end.

(** The step "if marking as completed", the update and the response. *)
Definition updateTask_finish (rq : UpdateTaskRequest) (task : Task)
    (body : TaskPatch) : Async (Response Task) :=
  (body <-
     (if match p_status body with Some s => is_completed s | None => false end
         && negb (is_completed (t_status task))
      then
        let body := patch_set_completedAt body (ut_now rq) in
        Client_inc_completedTasks (t_client task);;
        match t_worker task with
        | Some w => User_inc_completedTasks w
        | None => ret ()
        end;;
        match t_site task with
        | Some s => Site_inc_completedTasks s (ut_now rq)
        | None => ret ()
        end;;
        ret body
      else ret body);;
   task <- Task_findByIdAndUpdate (ut_id rq) body;;
   ret (mkResponse 200 true "Task updated successfully" task))%async.

(** * Scenarios *)

(** ** One item of fertilizer *)

Definition insufficient_db : Db :=
  mkDb {[ 1%positive :=
            mkInventory "Fertilizer" kg (mkQuantity 5 10 1000) None true
              (mkLowStockAlert true None) ]}
       [] ∅ ∅ ∅ ∅ [].

Definition insufficient_rq : WithdrawRequest :=
  mkWithdrawRequest 1%positive (mkAuthUser 9%positive worker) 10 None None 0.

Definition ledger_demo_db : Db :=
  mkDb {[ 1%positive :=
            mkInventory "Fertilizer" kg (mkQuantity 30 10 1000) None true
              (mkLowStockAlert true None) ]}
       [] {[ 9%positive := mkUser admin true 0 ]} ∅ ∅ ∅ [].

Definition withdraw_25 : LedgerRequest :=
  Withdraw (mkWithdrawRequest 1%positive (mkAuthUser 9%positive admin)
              25 None None 1000).

Definition restock_10 : LedgerRequest :=
  Restock (mkRestockRequest 1%positive (mkAuthUser 9%positive admin)
             10 None 2000).

Definition withdraw_1_at (now : Date) : LedgerRequest :=
  Withdraw (mkWithdrawRequest 1%positive (mkAuthUser 9%positive admin)
              1 None None now).

Definition withdraw_0 : LedgerRequest :=
  Withdraw (mkWithdrawRequest 1%positive (mkAuthUser 9%positive admin)
              0 None None 1000).

Definition restock_0 : LedgerRequest :=
  Restock (mkRestockRequest 1%positive (mkAuthUser 9%positive admin)
             0 None 1000).


(** ** One task of client 3 on site 4 *)

Definition two_and_a_half_hours : Task :=
  mkTask 3%positive (Some 4%positive) (Some 7%positive) completed 0
    None None [] (mkCost 0 0 0) (Some 0) (Some 9000000).

(** A task with two material lines on the fertilizer, assigned to nobody. *)
Definition open_task : Task :=
  mkTask 3%positive (Some 4%positive) None pending 0 None None
    [mkMaterial (Some 1%positive) 5; mkMaterial None 2;
     mkMaterial (Some 1%positive) 3]
    (mkCost 0 0 0) None None.

Definition task_demo_db : Db :=
  mkDb {[ 1%positive :=
            mkInventory "Fertilizer" kg (mkQuantity 30 10 1000) None true
              (mkLowStockAlert true None) ]}
       []
       (<[ 7%positive := mkUser worker true 0 ]>
          (<[ 8%positive := mkUser worker true 0 ]>
             {[ 9%positive := mkUser admin true 0 ]}))
       {[ 3%positive := mkClient 1 0 ]}
       {[ 4%positive := mkSite 1 0 None ]}
       {[ 1%positive := open_task ]}
       [].

Definition the_admin : AuthUser := mkAuthUser 9%positive admin.
Definition worker_7 : AuthUser := mkAuthUser 7%positive worker.
Definition no_patch : TaskPatch := mkTaskPatch None None None None.

Definition assign_by_update : UpdateTaskRequest :=
  mkUpdateTaskRequest 1 the_admin
    (mkTaskPatch (Some (Some 7%positive)) None None None) 50.

(** [{ worker: null }] *)
Definition unassign_by_update : UpdateTaskRequest :=
  mkUpdateTaskRequest 1 the_admin (mkTaskPatch (Some None) None None None) 60.

Definition task_of_worker_7 : Task :=
  mkTask 3%positive (Some 4%positive) (Some 7%positive) assigned 0 None None
    [mkMaterial (Some 1%positive) 5] (mkCost 0 0 0) None None.

Definition assigned_db : Db :=
  with_tasks task_demo_db {[ 1%positive := task_of_worker_7 ]}.

Definition assign_to (w : ObjectId) : AssignTaskRequest :=
  mkAssignTaskRequest 1 the_admin (Some w) 50.

Definition running_task : Task :=
  mkTask 3%positive (Some 4%positive) (Some 7%positive) in_progress 0
    (Some (mkLocation (mkCoordinates None None) 1000)) None
    [] (mkCost 0 0 0) (Some 1000) None.

Definition running_db : Db :=
  with_tasks task_demo_db {[ 1%positive := running_task ]}.

Definition complete_by_worker_7 : WorkerActionRequest :=
  mkWorkerActionRequest 1 worker_7 (mkCoordinates None None) 9001000.

Definition complete_by_update : UpdateTaskRequest :=
  mkUpdateTaskRequest 1 worker_7
    (mkTaskPatch None (Some completed) None None) 9001000.

(** ** Requests on the fertilizer *)



Definition restock_minus_31 : RestockRequest :=
  mkRestockRequest 1 (mkAuthUser 9 admin) (-31) None 1000.

Definition withdraw_from_2 : LedgerRequest :=
  Withdraw (mkWithdrawRequest 2 (mkAuthUser 9 admin) 1 None None 1000).


(** ** Tasks in other states *)

Definition finished_task : Task :=
  mkTask 3%positive (Some 4%positive) (Some 7%positive) completed 2.5
    None None [] (mkCost 0 0 0) (Some 1000) (Some 9001000).

Definition finished_db : Db :=
  with_tasks task_demo_db {[ 1%positive := finished_task ]}.

Definition start_by_worker_7 (now : Date) : WorkerActionRequest :=
  mkWorkerActionRequest 1 worker_7 (mkCoordinates None None) now.

Definition complete_by_worker_7_at (now : Date) : WorkerActionRequest :=
  mkWorkerActionRequest 1 worker_7 (mkCoordinates None None) now.

(** ** A task that asks more than the stock holds *)



Definition update_by (u : AuthUser) (body : TaskPatch) : UpdateTaskRequest :=
  mkUpdateTaskRequest 1 u body 50.

Definition worker_8 : AuthUser := mkAuthUser 8%positive worker.

(** ** Bearer tokens *)

Definition token_of (id : ObjectId) : Bearer := Token (UserToken id).

Definition client_token : Bearer := Token (ClientToken 3 1).

Definition restock_7 : RestockRequest :=
  mkRestockRequest 1 worker_7 7 None 1000.

(** Worker 7 is deactivated. *)
Definition deactivated_db : Db :=
  with_users task_demo_db
    (<[ 7%positive := mkUser worker false 0 ]> (users task_demo_db)).

(** ** A task whose total cost is out of date *)

Definition costly_task : Task :=
  mkTask 3%positive (Some 4%positive) (Some 7%positive) assigned 0 None None
    [] (mkCost 40 10 0) None None.

Definition costly_db : Db :=
  with_tasks task_demo_db {[ 1%positive := costly_task ]}.

(** * Properties *)

(** ** Comparisons *)

Lemma Qlt_bool_true (x y : Q) : Qlt_bool x y = true <-> (x < y)%Q.
Proof.
  unfold Qlt_bool. rewrite negb_true_iff.
  split.
  - intros H. apply Qnot_le_lt. intros Hle.
    apply Qle_bool_iff in Hle. congruence.
  - intros H. destruct (Qle_bool y x) eqn:E; [|reflexivity].
    apply Qle_bool_iff in E. exfalso. apply (Qlt_not_le _ _ H E).
Qed.

Lemma Qlt_bool_false (x y : Q) : Qlt_bool x y = false <-> (y <= x)%Q.
Proof.
  unfold Qlt_bool. rewrite negb_false_iff. apply Qle_bool_iff.
Qed.

Lemma alert_due_gap (last now : Date) :
  alert_due (Some last) now = true <-> DAY_MS < now - last.
Proof. unfold alert_due. apply Z.ltb_lt. Qed.

(** Two lookups of one key found the same document. *)
Ltac same_item it item :=
  try (assert (it = item) by congruence; subst it).

(** ** The outcomes of the ledger handlers *)

Lemma withdrawInventory_outcome (rq : WithdrawRequest) (db : Db) :
  withdraw_outcome rq db (fst (withdrawInventory rq db))
                         (snd (withdrawInventory rq db)).
Proof.
  unfold withdrawInventory, try_catch, withdrawInventory_body, await,
    Inventory_findById, query. cbn [fst snd].
  destruct (inventories db !! wr_id rq) as [item|] eqn:Hitem.
  2: { cbn. by apply wo_not_found. }
  destruct (Qlt_bool (current item) (wr_quantity rq)) eqn:Hlt.
  { cbn. apply wo_insufficient with item; [done|]. by apply Qlt_bool_true. }
  apply Qlt_bool_false in Hlt.
  unfold deduct.
  assert (Hnlt : Qlt_bool (current item) (wr_quantity rq) = false)
    by by apply Qlt_bool_false.
  rewrite Hnlt. unfold Inventory_save.
  assert (Hval : Inventory_validate
                   (set_current item (current item - wr_quantity rq)) = true).
  { unfold Inventory_validate. apply Qle_bool_iff. cbn. lra. }
  rewrite Hval. unfold await, update, ret. cbn [fst snd].
  unfold InventoryTransaction_create, InventoryTransaction_validate.
  cbn [tx_notes]. fold (notes_ok (wr_notes rq)).
  destruct (notes_ok (wr_notes rq)) eqn:Hnotes.
  2: { cbn. by apply wo_record_rejected. }
  unfold await, update, ret. cbn [fst snd].
  set (item' := set_current item (current item - wr_quantity rq)).
  destruct (Qle_bool (current item') (minimum item')
            && lsa_enabled (inv_lowStockAlert item')) eqn:Hlow.
  2: { cbn [fst snd]. apply (wo_done_quiet rq db item); try done.
       left. unfold alert_wanted. fold item'. by rewrite Hlow. }
  destruct (alert_due (lsa_lastAlertSent (inv_lowStockAlert item')) (wr_now rq))
    eqn:Hdue.
  2: { cbn [fst snd]. apply (wo_done_quiet rq db item); try done.
       left. unfold alert_wanted. fold item'. by rewrite Hlow, Hdue. }
  unfold User_findOne_active_admin, query, await. cbn [fst snd users].
  destruct (head _) as [[adminId adm]|] eqn:Hadm.
  2: { cbn [fst snd]. apply (wo_done_quiet rq db item); try done. by right. }
  unfold notifyLowStock, await, update, ret. cbn [fst snd].
  assert (Hval' : Inventory_validate (set_lastAlertSent item' (wr_now rq)) = true)
    by exact Hval.
  unfold Inventory_save. rewrite Hval'. unfold await, update, ret.
  cbn [fst snd]. unfold with_inventories, with_transactions, with_notices.
  cbn [inventories transactions users clients sites tasks notices].
  rewrite insert_insert_eq.
  apply (wo_done_alert rq db item adminId adm); try done.
  unfold alert_wanted. fold item'. by rewrite Hlow, Hdue.
Qed.

Lemma restockInventory_outcome (rq : RestockRequest) (db : Db) :
  restock_outcome rq db (fst (restockInventory rq db))
                        (snd (restockInventory rq db)).
Proof.
  unfold restockInventory, try_catch, restockInventory_body, await,
    Inventory_findById, query. cbn [fst snd].
  destruct (inventories db !! rr_id rq) as [item|] eqn:Hitem.
  2: { cbn. by apply ro_not_found. }
  unfold restock, Inventory_save. fold (restocked_item rq item).
  destruct (Inventory_validate (restocked_item rq item)) eqn:Hval.
  2: { cbn. apply ro_save_rejected with item; [done|].
       apply Qnot_le_lt. intros Hle. apply Qle_bool_iff in Hle.
       unfold Inventory_validate in Hval. cbn in Hval, Hle. congruence. }
  assert (Hnn : (0 <= current item + rr_quantity rq)%Q).
  { unfold Inventory_validate in Hval. by apply Qle_bool_iff in Hval. }
  unfold await, update, ret. cbn [fst snd].
  unfold InventoryTransaction_create, InventoryTransaction_validate.
  cbn [tx_notes]. fold (notes_ok (rr_notes rq)).
  destruct (notes_ok (rr_notes rq)) eqn:Hnotes.
  2: { cbn [fst snd]. by apply (ro_record_rejected rq db item). }
  unfold await, update, ret. cbn [fst snd].
  by apply (ro_done rq db item).
Qed.

(** ** Frame lemmas of the document setters *)

Lemma current_set_current it c : current (set_current it c) = c.
Proof. reflexivity. Qed.

Lemma current_set_lastAlertSent it d :
  current (set_lastAlertSent it d) = current it.
Proof. reflexivity. Qed.

Lemma current_restocked_item rq it :
  current (restocked_item rq it) = (current it + rr_quantity rq)%Q.
Proof. reflexivity. Qed.

(** ** Stock ledger: a refused withdrawal *)

(** C1: a withdrawal of more than the item's current quantity answers
    400 "Insufficient stock", leaves the item (and the whole database)
    as it was, and writes no transaction record. *)
Theorem withdraw_insufficient_stock
    (rq : WithdrawRequest) (db : Db) (item : Inventory) :
  inventories db !! wr_id rq = Some item ->
  (current item < wr_quantity rq)%Q ->
  let db' := fst (withdrawInventory rq db) in
  let res := snd (withdrawInventory rq db) in
  res_status res = 400 /\ res_success res = false /\
  res_message res = "Insufficient stock" /\
  inventories db' !! wr_id rq = Some item /\
  transactions db' = transactions db /\
  db' = db.
Proof.
  intros Hitem Hlt db' res. subst db' res.
  destruct (withdrawInventory_outcome rq db) as
    [Hnone | it Hit _ | it Hit Hle _ | it Hit Hle _ ? _
     | it aid adm Hit Hle _ ? _ _];
    same_item it item;
    try (exfalso; lra); try congruence.
  done.
Qed.

Lemma withdraw_insufficient_stock_witness :
  res_status (snd (withdrawInventory insufficient_rq insufficient_db)) = 400
  /\ fst (withdrawInventory insufficient_rq insufficient_db) = insufficient_db.
Proof.
  pose proof (withdraw_insufficient_stock insufficient_rq insufficient_db
    (mkInventory "Fertilizer" kg (mkQuantity 5 10 1000) None true
       (mkLowStockAlert true None))) as H.
  cbv zeta in H.
  destruct H as (H1 & _ & _ & _ & _ & H2).
  - reflexivity.
  - reflexivity.
  - split; [exact H1 | exact H2].
Defined.

(** The scenario of the specification: 30 in stock with a minimum of 10;
    a withdrawal of 25 leaves 5, low on stock, and alerts the admin; a
    withdrawal of 10 right after is refused and 5 remain. *)
Example withdraw_25_then_10 :
  let db1 := fst (ledger_step withdraw_25 ledger_demo_db) in
  let r2 := withdrawInventory
              (mkWithdrawRequest 1 (mkAuthUser 9 admin) 10 None None 1001) db1 in
  (current <$> (inventories db1 !! 1%positive)) = Some 5%Q /\
  (stockStatus <$> (inventories db1 !! 1%positive)) = Some low_stock /\
  notices db1 = [LowStockNotice 9 1 1000] /\
  res_status (snd r2) = 400 /\
  res_message (snd r2) = "Insufficient stock" /\
  fst r2 = db1.
Proof. cbv zeta. repeat split. Qed.

(** On the quantities of this scenario the arithmetic on doubles gives
    the same numbers. *)
Example withdraw_25_then_10_on_doubles :
  withdraw_double 30 25 = Some 5%float /\
  withdraw_double 5 10 = None /\
  restock_double 5 10 = Some 15%float.
Proof. repeat split. Qed.

(** ** Stock ledger: a request that goes through *)

Lemma ledger_step_success (op : LedgerRequest) (db : Db) :
  successful (snd (ledger_step op db)) ->
  exists item item' tx,
    inventories db !! ledger_id op = Some item /\
    inventories (fst (ledger_step op db))
      = <[ledger_id op := item']> (inventories db) /\
    current item' = ledger_result op (current item) /\
    (0 <= current item')%Q /\
    transactions (fst (ledger_step op db)) = transactions db ++ [tx] /\
    tx_inventory tx = ledger_id op /\
    tx_type tx = ledger_type op /\
    tx_quantity tx = ledger_quantity op /\
    tx_previousQuantity tx = current item /\
    tx_newQuantity tx = current item'.
Proof.
  unfold successful. destruct op as [rq|rq]; cbn [ledger_step].
  - destruct (withdrawInventory_outcome rq db) as
      [Hnone | it Hit _ | it Hit Hle _ | it Hit Hle _ item' _
       | it aid adm Hit Hle _ item' _ _]; cbn; try discriminate; intros _.
    + exists it, item', (withdrawal_record rq it).
      repeat split; try done. subst item'. cbn. lra.
    + exists it, (set_lastAlertSent item' (wr_now rq)), (withdrawal_record rq it).
      repeat split; try done. subst item'. cbn. lra.
  - destruct (restockInventory_outcome rq db) as
      [Hnone | it Hit _ | it Hit Hnn _ | it Hit Hnn _];
      cbn; try discriminate; intros _.
    exists it, (restocked_item rq it), (restock_record rq it).
    repeat split; done.
Qed.


(** When a request goes through: the item exists, the resulting quantity
    is not negative and the notes fit the transaction schema. *)
Lemma ledger_step_succeeds (op : LedgerRequest) (db : Db) (item : Inventory) :
  inventories db !! ledger_id op = Some item ->
  (0 <= ledger_result op (current item))%Q ->
  notes_ok (ledger_notes op) = true ->
  successful (snd (ledger_step op db)).
Proof.
  unfold successful.
  destruct op as [rq|rq];
    cbn [ledger_id ledger_result ledger_notes ledger_step];
    intros Hitem Hres Hnotes.
  - destruct (withdrawInventory_outcome rq db) as
      [Hnone | it Hit Hlt | it Hit Hle Hn | it Hit Hle _ item' _
       | it aid adm Hit Hle _ item' _ _]; try done;
      same_item it item;
      try congruence.
    exfalso. lra.
  - destruct (restockInventory_outcome rq db) as
      [Hnone | it Hit Hlt | it Hit Hnn Hn | it Hit Hnn _]; try done;
      same_item it item;
      try congruence.
    exfalso. lra.
Qed.




(** ** Stock ledger: sequences of operations *)






(** ** Low-stock alerts *)

Lemma alert_times_app i l1 l2 :
  alert_times i (l1 ++ l2) = alert_times i l1 ++ alert_times i l2.
Proof.
  induction l1 as [|[r j t|r k t|r k t] l1 IH]; cbn; try done.
  destruct (Pos.eqb j i); cbn; by rewrite IH.
Qed.

Lemma ledger_step_alert (op : LedgerRequest) (db : Db) (i : ObjectId) :
  let db' := fst (ledger_step op db) in
  exists new, notices db' = notices db ++ new /\
    ((alert_times i new = [] /\ last_alert db' i = last_alert db i) \/
     (alert_times i new = [ledger_now op] /\
      last_alert db' i = Some (ledger_now op) /\
      alert_due (last_alert db i) (ledger_now op) = true)).
Proof.
  cbn zeta.
  assert (Hsame : forall j x y,
            inventories db !! j = Some x ->
            lsa_lastAlertSent (inv_lowStockAlert y)
              = lsa_lastAlertSent (inv_lowStockAlert x) ->
            forall d, inventories d = <[j := y]> (inventories db) ->
            last_alert d i = last_alert db i).
  { intros j x y Hx Hxy d Hd. unfold last_alert. rewrite Hd.
    destruct (decide (j = i)) as [->|Hne].
    - by rewrite lookup_insert_eq, Hx.
    - by rewrite lookup_insert_ne. }
  destruct op as [rq|rq]; cbn [ledger_step ledger_now].
  - destruct (withdrawInventory_outcome rq db) as
      [Hnone | it Hit _ | it Hit Hle _ | it Hit Hle _ item' _
       | it aid adm Hit Hle _ item' Hw _].
    + exists []. rewrite app_nil_r. split; [done|]. by left.
    + exists []. rewrite app_nil_r. split; [done|]. by left.
    + exists []. rewrite app_nil_r. split; [done|]. left. split; [done|].
      by apply (Hsame (wr_id rq) it
                  (set_current it (current it - wr_quantity rq))).
    + exists []. rewrite app_nil_r. split; [done|]. left. split; [done|].
      by apply (Hsame (wr_id rq) it item').
    + exists [LowStockNotice aid (wr_id rq) (wr_now rq)]. split; [done|].
      cbn [alert_times].
      destruct (Pos.eqb_spec (wr_id rq) i) as [<-|Hne].
      * right. split; [done|]. unfold last_alert. cbn [inventories].
        rewrite lookup_insert_eq, Hit. split; [done|].
        unfold alert_wanted in Hw.
        apply andb_true_iff in Hw as [_ Hw]. exact Hw.
      * left. split; [done|]. unfold last_alert. cbn [inventories].
        by rewrite lookup_insert_ne.
  - destruct (restockInventory_outcome rq db) as
      [Hnone | it Hit _ | it Hit Hnn _ | it Hit Hnn _];
      exists []; rewrite app_nil_r; (split; [done|]); left; (split; [done|]);
      try done; by apply (Hsame (rr_id rq) it (restocked_item rq it)).
Qed.

Lemma ledger_final_alerts (i : ObjectId) (ops : list LedgerRequest) :
  forall db, exists new,
    notices (ledger_final ops db) = notices db ++ new /\
    spaced_from (last_alert db i) (alert_times i new).
Proof.
  induction ops as [|op ops IH]; intros db; cbn [ledger_final].
  - exists []. by rewrite app_nil_r.
  - destruct (ledger_step_alert op db i) as (new1 & Hnew1 & Hcase).
    destruct (IH (fst (ledger_step op db))) as (new2 & Hnew2 & Hsp).
    exists (new1 ++ new2). split.
    + by rewrite Hnew2, Hnew1, app_assoc.
    + rewrite alert_times_app.
      destruct Hcase as [[-> Hlast] | (-> & Hlast & Hdue)]; cbn [app].
      * by rewrite <- Hlast.
      * cbn [spaced_from]. rewrite Hlast in Hsp. split; [|done].
        destruct (last_alert db i) as [a|]; [|done].
        by apply alert_due_gap.
Qed.

Lemma DAY_MS_pos : 0 < DAY_MS.
Proof. reflexivity. Qed.

Lemma spaced_from_after (a : Date) (l : list Date) :
  spaced_from (Some a) l -> Forall (fun t => DAY_MS < t - a) l.
Proof.
  revert a. induction l as [|t l IH]; intros a; cbn [spaced_from].
  - constructor.
  - intros [Hgap Hsp]. constructor; [done|].
    apply IH in Hsp. eapply Forall_impl; [exact Hsp|].
    cbn. intros x Hx. pose proof DAY_MS_pos. lia.
Qed.

Lemma spaced_from_window (o : option Date) (l : list Date) (t : Date) :
  spaced_from o l -> (length (List.filter (in_window t) l) <= 1)%nat.
Proof.
  revert o. induction l as [|a l IH]; intros o; cbn [spaced_from List.filter].
  - cbn. lia.
  - intros [_ Hsp]. destruct (in_window t a) eqn:Ha.
    + apply spaced_from_after in Hsp.
      assert (Hnone : List.filter (in_window t) l = []).
      { clear IH. induction Hsp as [|x l Hx _ IHl]; [done|].
        cbn [List.filter]. unfold in_window in Ha |- *.
        apply andb_true_iff in Ha as [Ha1 Ha2].
        apply Z.leb_le in Ha1.
        assert ((x <=? t + DAY_MS) = false) as -> by (apply Z.leb_gt; lia).
        rewrite andb_false_r. exact IHl. }
      rewrite Hnone. cbn. lia.
    + by apply IH with (Some a).
Qed.

(** C6: the low-stock notices that any sequence of ledger requests sends
    for one item are more than 24 hours apart, so that no window of 24
    hours holds two of them (and the first is more than 24 hours after the
    [lastAlertSent] the item had); a withdrawal that sends a notice sets
    the item's [lastAlertSent] to the time of the request. *)
Theorem low_stock_alert_throttle
    (i : ObjectId) (ops : list LedgerRequest) (db : Db) :
  (forall t : Date,
     (length (List.filter (in_window t) (alert_times i (sent_during ops db)))
      <= 1)%nat) /\
  (forall last, last_alert db i = Some last ->
     Forall (fun t => DAY_MS < t - last) (alert_times i (sent_during ops db))) /\
  (forall rq : WithdrawRequest,
     let db' := fst (withdrawInventory rq db) in
     notices db' = notices db \/
     exists adminId,
       notices db' = notices db ++ [LowStockNotice adminId (wr_id rq) (wr_now rq)]
       /\ last_alert db' (wr_id rq) = Some (wr_now rq)).
Proof.
  destruct (ledger_final_alerts i ops db) as (new & Hnew & Hsp).
  assert (Hsent : sent_during ops db = new).
  { unfold sent_during. rewrite Hnew. apply drop_app_length. }
  rewrite Hsent. split; [|split].
  - intros t. by apply spaced_from_window with (last_alert db i).
  - intros last Hlast. rewrite Hlast in Hsp. by apply spaced_from_after.
  - intros rq. cbn zeta.
    destruct (withdrawInventory_outcome rq db) as
      [Hnone | it Hit _ | it Hit Hle _ | it Hit Hle _ item' _
       | it aid adm Hit Hle _ item' Hw _]; try (by left).
    right. exists aid. split; [done|].
    unfold last_alert. cbn [inventories]. by rewrite lookup_insert_eq.
Qed.

Lemma low_stock_alert_throttle_witness :
  alert_times 1%positive
    (sent_during [withdraw_25; withdraw_1_at 2000; withdraw_1_at 86401001]
       ledger_demo_db) = [1000; 86401001] /\
  (length (List.filter (in_window 1000%Z)
     (alert_times 1%positive
        (sent_during [withdraw_25; withdraw_1_at 2000%Z;
                      withdraw_1_at 86401001%Z]
           ledger_demo_db))) <= 1)%nat.
Proof.
  split; [reflexivity|].
  exact (proj1 (low_stock_alert_throttle 1%positive
                  [withdraw_25; withdraw_1_at 2000; withdraw_1_at 86401001]
                  ledger_demo_db) 1000).
Defined.

(** ** Quantities that are not positive *)

(** C8, as the code has it: a request whose quantity is zero is not
    rejected.  On an existing item with a non-negative quantity (and notes
    that fit the schema) it succeeds with status 200, leaves the quantity
    as it was and records one transaction of quantity zero whose
    [newQuantity] equals its [previousQuantity]. *)
Theorem zero_quantity_processed
    (op : LedgerRequest) (db : Db) (item : Inventory) :
  inventories db !! ledger_id op = Some item ->
  (0 <= current item)%Q ->
  notes_ok (ledger_notes op) = true ->
  (ledger_quantity op == 0)%Q ->
  successful (snd (ledger_step op db)) /\
  exists item' tx,
    inventories (fst (ledger_step op db)) !! ledger_id op = Some item' /\
    (current item' == current item)%Q /\
    transactions (fst (ledger_step op db)) = transactions db ++ [tx] /\
    tx_type tx = ledger_type op /\
    (tx_quantity tx == 0)%Q /\
    (tx_newQuantity tx == tx_previousQuantity tx)%Q.
Proof.
  intros Hitem Hnn Hnotes Hzero.
  assert (Hres : (ledger_result op (current item) == current item)%Q).
  { destruct op; cbn in Hzero |- *; lra. }
  assert (Hok : successful (snd (ledger_step op db))).
  { apply ledger_step_succeeds with item; try done. lra. }
  split; [done|].
  destruct (ledger_step_success op db Hok)
    as (it & item' & tx & Hit & Hinv & Hcur & _ & Htx & _ & Hty & Hq
        & Hprev & Hnew).
  assert (it = item) as -> by congruence.
  exists item', tx. repeat split; try done.
  - rewrite Hinv. apply lookup_insert_eq.
  - by rewrite Hcur.
  - by rewrite Hq.
  - by rewrite Hnew, Hprev, Hcur.
Qed.

Lemma zero_quantity_processed_witness :
  successful (snd (ledger_step withdraw_0 ledger_demo_db)).
Proof.
  refine (proj1 (zero_quantity_processed withdraw_0 ledger_demo_db
    (mkInventory "Fertilizer" kg (mkQuantity 30 10 1000) None true
       (mkLowStockAlert true None)) _ _ _ _)).
  - reflexivity.
  - cbn. lra.
  - reflexivity.
  - reflexivity.
Defined.

(** C8, as the specification words it, fails: neither handler answers a
    zero quantity with a 400; both answer 200 and write a transaction. *)
Lemma zero_quantity_not_rejected :
  (ledger_quantity withdraw_0 == 0)%Q /\
  (ledger_quantity restock_0 == 0)%Q /\
  res_status (snd (ledger_step withdraw_0 ledger_demo_db)) = 200 /\
  res_status (snd (ledger_step restock_0 ledger_demo_db)) = 200 /\
  res_status (snd (ledger_step withdraw_0 ledger_demo_db)) <> 400 /\
  res_status (snd (ledger_step restock_0 ledger_demo_db)) <> 400 /\
  length (transactions (fst (ledger_step withdraw_0 ledger_demo_db))) = 1%nat /\
  length (transactions (fst (ledger_step restock_0 ledger_demo_db))) = 1%nat.
Proof. repeat split; try reflexivity; vm_compute; discriminate. Qed.




(** ** Task duration *)

Lemma nearest_integer_bounds (s : bool) (m : positive) (e : Z) :
  let v := (inject_Z (cond_Zopp s (Z.pos m)) * 2 ^ e)%Q in
  (v - (1 # 2) < inject_Z (nearest_integer s m e) /\
   inject_Z (nearest_integer s m e) <= v + (1 # 2))%Q.
Proof.
  cbv zeta. unfold nearest_integer.
  set (n := cond_Zopp s (Z.pos m)).
  destruct (Z.leb_spec 0 e) as [He|He].
  - rewrite inject_Z_mult, (Zpower_Qpower 2 e He).
    change (inject_Z 2) with 2%Q. split; lra.
  - set (p := - e). assert (Hp : 0 < p) by lia.
    replace e with (- p) by lia. replace (1 - - p) with (Z.succ p) by lia.
    replace (- - p) with p by lia.
    rewrite Z.pow_succ_r by lia.
    set (P := 2 ^ p). assert (HP : 0 < P) by (apply Z.pow_pos_nonneg; lia).
    set (k := (2 * n + P) / (2 * P)).
    assert (Hlo : 2 * P * k <= 2 * n + P) by (apply Z.mul_div_le; lia).
    assert (Hhi : 2 * n + P < 2 * P * Z.succ k)
      by (apply Z.mul_succ_div_gt; lia).
    rewrite Qpower_opp.
    assert (HPQ : ((2 : Q) ^ p == inject_Z P)%Q).
    { unfold P. rewrite Zpower_Qpower by lia. reflexivity. }
    rewrite HPQ.
    assert (HP' : (0 < inject_Z P)%Q).
    { change 0%Q with (inject_Z 0). rewrite <- Zlt_Qlt. exact HP. }
    rewrite Zle_Qle in Hlo. rewrite Zlt_Qlt in Hhi.
    unfold Z.succ in Hhi.
    repeat (rewrite inject_Z_mult in Hlo || rewrite inject_Z_plus in Hlo).
    repeat (rewrite inject_Z_mult in Hhi || rewrite inject_Z_plus in Hhi).
    change (inject_Z 2) with 2%Q in *. change (inject_Z 1) with 1%Q in *.
    set (k' := inject_Z k) in *. set (n' := inject_Z n) in *.
    set (P' := inject_Z P) in *.
    assert (Hv : (n' == n' * / P' * P')%Q) by (field; lra).
    set (v := (n' * / P')%Q) in *.
    split.
    + apply Qnot_le_lt. intros Hc.
      assert (0 <= (v - (1 # 2) - k') * P')%Q
        by (apply Qmult_le_0_compat; lra).
      lra.
    + apply Qnot_lt_le. intros Hc.
      assert (0 < (k' - v - (1 # 2)) * P')%Q
        by (apply Qmult_lt_0_compat; lra).
      lra.
Qed.

(** [Math.round] of a finite double: the integer nearest to its value, a
    tie going up. *)
Lemma Math_round_nearest (x : float) (v : Q) :
  Number_value x = Some v ->
  exists k : Z,
    (v - (1 # 2) < inject_Z k /\ inject_Z k <= v + (1 # 2))%Q /\
    integral_double (Math_round x) k.
Proof.
  unfold Number_value, Math_round, integral_double.
  destruct (Prim2SF x) as [s| | |s m e] eqn:Hx; try discriminate.
  - intros [= <-]. exists 0. change (inject_Z 0) with 0%Q.
    split; [split; lra|].
    destruct s.
    + right. split; [done|]. apply Prim2SF_inj. by rewrite Hx.
    + left. apply Prim2SF_inj. by rewrite Hx.
  - intros [= <-]. exists (nearest_integer s m e).
    split; [apply nearest_integer_bounds|].
    destruct (Z.eqb_spec (nearest_integer s m e) 0) as [->|Hne].
    + destruct s; [right|left]; done.
    + by left.
Qed.

Lemma pre_save_duration_present (t : Task) (s c : Date) :
  t_startedAt t = Some s -> t_completedAt t = Some c ->
  t_actualDuration (Task_pre_save t) = rounded_duration s c.
Proof. intros Hs Hc. unfold Task_pre_save. by rewrite Hs, Hc. Qed.

Lemma pre_save_duration_missing (t : Task) :
  t_startedAt t = None \/ t_completedAt t = None ->
  t_actualDuration (Task_pre_save t) = t_actualDuration t.
Proof.
  intros [H|H]; unfold Task_pre_save; rewrite H; [done|].
  by destruct (t_startedAt t).
Qed.

(** C7, as the code has it: a save of a task with both [startedAt] and
    [completedAt] stores as [actualDuration] the double
    [Math.round(h * 100) / 100], where [h] is the double quotient of their
    difference by [1000 * 60 * 60]: whenever the double [h * 100] is
    finite, [Math.round] gives the integer nearest to it, a tie going up,
    and the stored value is the double quotient of that integer by 100.  A
    save of a task that lacks one of the two time stamps does not compute
    [actualDuration] and stores the value the task already had. *)
Theorem actualDuration_on_save (id : ObjectId) (t : Task) (db : Db) :
  exists t', tasks (fst (Task_save id t db)) !! id = Some t' /\
    (forall s c, t_startedAt t = Some s -> t_completedAt t = Some c ->
       let hundredths := (duration_hours s c * 100)%float in
       t_actualDuration t' = (Math_round hundredths / 100)%float /\
       forall v, Number_value hundredths = Some v ->
         exists k : Z,
           (v - (1 # 2) < inject_Z k /\ inject_Z k <= v + (1 # 2))%Q /\
           integral_double (Math_round hundredths) k) /\
    (t_startedAt t = None \/ t_completedAt t = None ->
       t_actualDuration t' = t_actualDuration t).
Proof.
  exists (Task_pre_save t). split; [|split].
  - unfold Task_save, await, update, ret. cbn. apply lookup_insert_eq.
  - intros s c Hs Hc. cbv zeta.
    rewrite (pre_save_duration_present t s c Hs Hc).
    split; [reflexivity|]. apply Math_round_nearest.
  - apply pre_save_duration_missing.
Qed.

Lemma actualDuration_on_save_witness :
  exists t' (k : Z),
    tasks (fst (Task_save 1%positive two_and_a_half_hours ledger_demo_db))
      !! 1%positive = Some t' /\
    t_actualDuration t' = 2.5%float /\
    integral_double (Math_round (duration_hours 0 9000000 * 100)) k.
Proof.
  destruct (actualDuration_on_save 1%positive two_and_a_half_hours ledger_demo_db)
    as (t' & Ht' & Hboth & _).
  destruct (Hboth 0 9000000) as (Heq & Hk).
  - reflexivity.
  - reflexivity.
  - edestruct Hk as (k & _ & Hint).
    + vm_compute. reflexivity.
    + exists t', k. split; [exact Ht'|]. split; [|exact Hint].
      rewrite Heq. reflexivity.
Defined.

Example rounded_duration_2h30 : rounded_duration 0 9000000 = 2.5%float.
Proof. reflexivity. Qed.

(** 18 seconds: the double product is [0.5] and the tie goes up. *)
Example rounded_duration_tie : rounded_duration 0 18000 = (1 / 100)%float.
Proof. reflexivity. Qed.

(** 522 seconds are 14.5 hundredths of an hour; the double product is
    [14.499999999999998] and the stored duration is [0.14]. *)
Example rounded_duration_522s :
  (duration_hours 1000 523000 * 100 <? 14.5)%float = true /\
  rounded_duration 1000 523000 = (14 / 100)%float.
Proof. split; reflexivity. Qed.

(** C7, as the specification words it, fails: an update that sets
    [actualDuration] and then a start (a save with [completedAt] missing)
    leave a task whose [actualDuration] is neither absent nor zero. *)
Lemma actualDuration_not_zero_without_completedAt :
  let db1 := fst (assignTask
                    (mkAssignTaskRequest 1 the_admin (Some 7%positive) 50)
                    task_demo_db) in
  let db2 := fst (updateTask
                    (mkUpdateTaskRequest 1 the_admin
                       (mkTaskPatch None None (Some 5%float) None) 100) db1) in
  let db3 := fst (startTask
                    (mkWorkerActionRequest 1 worker_7
                       (mkCoordinates None None) 200) db2) in
  exists t, tasks db3 !! 1%positive = Some t /\
    t_startedAt t = Some 200 /\ t_completedAt t = None /\
    t_actualDuration t = 5%float /\ (t_actualDuration t =? 0)%float = false.
Proof.
  cbv zeta. eexists. split; [vm_compute; reflexivity|].
  repeat split.
Qed.

(** ** Assignment through the generic update *)

Lemma only_inventories_differ_refl db : only_inventories_differ db db.
Proof. by repeat split. Qed.

Lemma only_inventories_differ_trans db1 db2 db3 :
  only_inventories_differ db1 db2 -> only_inventories_differ db2 db3 ->
  only_inventories_differ db1 db3.
Proof.
  unfold only_inventories_differ.
  intros (?&?&?&?&?&?) (?&?&?&?&?&?). repeat split; congruence.
Qed.

Lemma deduct_material_spec (material : Material) (db : Db) :
  only_inventories_differ db (fst (deduct_material material db)) /\
  (snd (deduct_material material db) = Returned () ->
   forall i item, inventories db !! i = Some item ->
     exists item',
       inventories (fst (deduct_material material db)) !! i = Some item' /\
       (current item' == current item - declared i [material])%Q).
Proof.
  unfold deduct_material.
  assert (Hid : forall i item, inventories db !! i = Some item ->
            (0 + 0 == 0)%Q ->
            exists item', inventories db !! i = Some item' /\
              (current item' == current item - (0 + 0))%Q).
  { intros i item Hi _. exists item. split; [done|]. lra. }
  destruct material as [[j|] q]; cbn [m_item m_quantity declared].
  2: { cbn. split; [apply only_inventories_differ_refl|]. intros _ i item Hi.
       apply Hid; [done|reflexivity]. }
  unfold await, Inventory_findById, query. cbn [fst snd].
  destruct (inventories db !! j) as [it|] eqn:Hj.
  2: { cbn. split; [apply only_inventories_differ_refl|]. intros _ i item Hi.
       exists item. split; [done|].
       destruct (Pos.eqb_spec j i) as [->|_]; [congruence|lra]. }
  unfold deduct. destruct (Qlt_bool (current it) q) eqn:Hlt.
  { cbn. split; [apply only_inventories_differ_refl|]. discriminate. }
  apply Qlt_bool_false in Hlt.
  unfold Inventory_save.
  assert (Hval : Inventory_validate (set_current it (current it - q)) = true).
  { unfold Inventory_validate. apply Qle_bool_iff. cbn. lra. }
  rewrite Hval. unfold await, update, ret. cbn [fst snd].
  split; [by repeat split|]. intros _ i item Hi.
  unfold with_inventories. cbn [inventories].
  destruct (Pos.eqb_spec j i) as [->|Hne].
  - rewrite lookup_insert_eq. eexists. split; [done|].
    assert (it = item) as -> by congruence. cbn. lra.
  - rewrite lookup_insert_ne by done. exists item. split; [done|]. lra.
Qed.

Lemma deduct_materials_spec (materials : list Material) :
  forall db,
  only_inventories_differ db (fst (deduct_materials materials db)) /\
  (snd (deduct_materials materials db) = Returned () ->
   forall i item, inventories db !! i = Some item ->
     exists item',
       inventories (fst (deduct_materials materials db)) !! i = Some item' /\
       (current item' == current item - declared i materials)%Q).
Proof.
  induction materials as [|material rest IH]; intros db;
    cbn [deduct_materials].
  - cbn. split; [apply only_inventories_differ_refl|]. intros _ i item Hi.
    exists item. split; [done|]. lra.
  - destruct (deduct_material_spec material db) as [Hframe1 Hded1].
    unfold await.
    destruct (deduct_material material db) as [db1 [[]|msg]] eqn:Hstep;
      cbn [fst snd] in *.
    2: { split; [done|]. discriminate. }
    destruct (IH db1) as [Hframe2 Hded2].
    split; [by eapply only_inventories_differ_trans|].
    intros Hret i item Hi.
    destruct (Hded1 eq_refl i item Hi) as (item1 & Hi1 & Hc1).
    destruct (Hded2 Hret i item1 Hi1) as (item2 & Hi2 & Hc2).
    exists item2. split; [done|].
    rewrite Hc2, Hc1. cbn [declared]. lra.
Qed.

(** An update that carries a worker id, on a task that has no worker. *)
Lemma updateTask_assign_deducts
    (rq : UpdateTaskRequest) (db : Db) (task : Task) (w : ObjectId) :
  tasks db !! ut_id rq = Some task ->
  t_worker task = None ->
  p_worker (ut_body rq) = Some (Some w) ->
  let db' := fst (updateTask rq db) in
  let res := snd (updateTask rq db) in
  transactions db' = transactions db /\
  (successful res ->
   (exists task', tasks db' !! ut_id rq = Some task' /\
      t_worker task' = Some w /\ t_status task' = assigned /\
      t_materials task' = t_materials task) /\
   (forall i item, inventories db !! i = Some item ->
      exists item', inventories db' !! i = Some item' /\
        (current item' == current item - declared i (t_materials task))%Q)).
Proof.
  intros Htask Hnone Hw. cbv zeta.
  unfold updateTask, try_catch, updateTask_body, await, Task_findById, query.
  cbn [fst snd]. rewrite Htask.
  destruct (is_worker_role (au_role (ut_user rq))
            && worker_differs (t_worker task) (au_id (ut_user rq))) eqn:Hauth.
  { cbn. split; [done|]. unfold successful. cbn. discriminate. }
  rewrite Hw, Hnone.
  destruct (deduct_materials_spec (t_materials task) db) as [Hframe Hded].
  destruct (deduct_materials (t_materials task) db) as [db1 [[]|msg]] eqn:Hrun;
    cbn [fst snd] in *.
  2: { destruct Hframe as (Htx & _). split; [done|].
       unfold successful. cbn. discriminate. }
  destruct Hframe as (Htx & _ & _ & _ & Htasks & _).
  unfold ret, patch_set_status. cbn [p_status is_completed andb].
  unfold Task_findByIdAndUpdate, await, update, Task_findById, query, ret.
  cbn [fst snd]. unfold with_tasks.
  cbn [transactions tasks inventories].
  split; [done|]. intros _. split.
  - rewrite lookup_alter_eq, Htasks, Htask. eexists. split; [reflexivity|].
    cbn. by rewrite Hw.
  - intros i item Hi. by apply Hded.
Qed.




(** ** Assignment through the dedicated endpoint *)

(** The save hook writes [actualDuration] and [cost.total] only. *)
Lemma pre_save_keeps (t : Task) :
  t_worker (Task_pre_save t) = t_worker t /\
  t_status (Task_pre_save t) = t_status t /\
  t_startedAt (Task_pre_save t) = t_startedAt t /\
  t_completedAt (Task_pre_save t) = t_completedAt t /\
  t_client (Task_pre_save t) = t_client t /\
  t_site (Task_pre_save t) = t_site t.
Proof.
  unfold Task_pre_save.
  destruct (t_startedAt t) eqn:Hs, (t_completedAt t) eqn:Hc; cbn;
    by rewrite ?Hs, ?Hc.
Qed.

(** C3, as the code has it: [assignTask] does not look at the worker the
    task already has.  For a stored task and a [workerId] that names a
    user of role [worker] it sets the task's worker to [workerId] and its
    status to [assigned], sends the assignment notice and answers 200,
    whether or not a worker was set before. *)
Theorem assignTask_sets_worker
    (rq : AssignTaskRequest) (db : Db) (task : Task) (w : ObjectId) (wk : User) :
  tasks db !! at_id rq = Some task ->
  at_workerId rq = Some w ->
  users db !! w = Some wk ->
  u_role wk = worker ->
  let db' := fst (assignTask rq db) in
  let res := snd (assignTask rq db) in
  res_status res = 200 /\ res_success res = true /\
  (exists task', tasks db' !! at_id rq = Some task' /\
     t_worker task' = Some w /\ t_status task' = assigned) /\
  notices db' = notices db ++ [TaskAssignmentNotice w (at_id rq) (at_now rq)].
Proof.
  intros Htask Hw Hwk Hrole. cbv zeta.
  unfold assignTask, try_catch, assignTask_body, await, Task_findById,
    User_findById, query.
  cbn [fst snd]. rewrite Htask, Hw, Hwk, Hrole. cbn [is_worker_role negb].
  unfold Task_save, notifyTaskAssignment, await, update, ret. cbn [fst snd].
  unfold with_notices, with_tasks. cbn [tasks notices].
  repeat split. rewrite lookup_insert_eq. eexists. split; [reflexivity|].
  destruct (pre_save_keeps (set_assigned task w)) as (-> & -> & _).
  by split.
Qed.

Lemma assignTask_sets_worker_witness :
  res_status (snd (assignTask (assign_to 8) assigned_db)) = 200 /\
  exists task',
    tasks (fst (assignTask (assign_to 8) assigned_db)) !! 1%positive
      = Some task' /\ t_worker task' = Some 8%positive.
Proof.
  destruct (assignTask_sets_worker (assign_to 8) assigned_db
              task_of_worker_7 8%positive (mkUser worker true 0))
    as (Hst & _ & (task' & Ht & Hw & _) & _).
  - reflexivity.
  - reflexivity.
  - reflexivity.
  - reflexivity.
  - split; [exact Hst|]. exists task'. split; [exact Ht | exact Hw].
Defined.

(** C3, as the specification words it, fails twice: a task that already
    has worker 7 is handed to worker 8 with a 200, and assigning the open
    task (whose material lines declare 8 kg of item 1) touches neither the
    stock nor the transaction log. *)
Lemma assignTask_no_conflict_no_withdrawal :
  t_worker task_of_worker_7 = Some 7%positive /\
  res_status (snd (assignTask (assign_to 8) assigned_db)) = 200 /\
  res_success (snd (assignTask (assign_to 8) assigned_db)) = true /\
  (t_worker <$> (tasks (fst (assignTask (assign_to 8) assigned_db))
                   !! 1%positive)) = Some (Some 8%positive) /\
  t_worker open_task = None /\
  res_status (snd (assignTask (assign_to 7) task_demo_db)) = 200 /\
  inventories (fst (assignTask (assign_to 7) task_demo_db))
    = inventories task_demo_db /\
  transactions (fst (assignTask (assign_to 7) task_demo_db)) = [].
Proof. repeat split. Qed.

(** ** Completion *)

(** [completeTask] writes the task and nothing else. *)
Lemma completeTask_frame (rq : WorkerActionRequest) (db : Db) :
  let db' := fst (completeTask rq db) in
  clients db' = clients db /\ users db' = users db /\ sites db' = sites db /\
  notices db' = notices db /\ inventories db' = inventories db /\
  transactions db' = transactions db.
Proof.
  cbv zeta.
  unfold completeTask, try_catch, completeTask_body, await, Task_findById,
    query.
  cbn [fst snd].
  destruct (tasks db !! wa_id rq) as [task|]; [|done].
  unfold worker_toString. destruct (t_worker task) as [w|]; [|done].
  unfold ret. destruct (negb (Pos.eqb w (au_id (wa_user rq)))); [done|].
  unfold Task_save, await, update, ret. by cbn.
Qed.

(** What [completeTask] does for the assigned worker. *)
Lemma completeTask_by_worker
    (rq : WorkerActionRequest) (db : Db) (task : Task) :
  tasks db !! wa_id rq = Some task ->
  t_worker task = Some (au_id (wa_user rq)) ->
  res_status (snd (completeTask rq db)) = 200 /\
  exists task', tasks (fst (completeTask rq db)) !! wa_id rq = Some task' /\
    t_status task' = completed /\ t_completedAt task' = Some (wa_now rq).
Proof.
  intros Htask Hw.
  unfold completeTask, try_catch, completeTask_body, await, Task_findById,
    query.
  cbn [fst snd]. rewrite Htask, Hw. unfold worker_toString, ret.
  rewrite Pos.eqb_refl. cbn [negb].
  unfold Task_save, await, update, ret. cbn [fst snd].
  split; [done|]. unfold with_tasks. cbn [tasks].
  rewrite lookup_insert_eq. eexists. split; [reflexivity|].
  destruct (pre_save_keeps (set_completed task (wa_coordinates rq) (wa_now rq)))
    as (_ & -> & _ & -> & _).
  by split.
Qed.

(** C4 on the code: worker 7 completes a running task of client 3 on site
    4.  The task becomes [completed] at the time of the request, but the
    three [completedTasks] counters and the site's [lastVisit] keep their
    values and no notice is sent; the same completion made through
    [updateTask] raises the three counters. *)
Theorem completeTask_leaves_counters :
  let db' := fst (completeTask complete_by_worker_7 running_db) in
  res_status (snd (completeTask complete_by_worker_7 running_db)) = 200 /\
  (t_status <$> (tasks db' !! 1%positive)) = Some completed /\
  (t_completedAt <$> (tasks db' !! 1%positive)) = Some (Some 9001000) /\
  clients running_db !! 3%positive = Some (mkClient 1 0) /\
  clients db' !! 3%positive = Some (mkClient 1 0) /\
  users db' !! 7%positive = Some (mkUser worker true 0) /\
  sites db' !! 4%positive = Some (mkSite 1 0 None) /\
  notices db' = [] /\
  let db'' := fst (updateTask complete_by_update running_db) in
  clients db'' !! 3%positive = Some (mkClient 1 1) /\
  users db'' !! 7%positive = Some (mkUser worker true 1) /\
  sites db'' !! 4%positive = Some (mkSite 1 1 (Some 9001000)).
Proof. cbv zeta. repeat split. Qed.

(** * Further properties *)

(** ** The stock status and the list filter *)

Lemma Qeq_bool_true (x y : Q) : Qeq_bool x y = true <-> (x == y)%Q.
Proof. apply Qeq_bool_iff. Qed.

Lemma Qeq_bool_false (x y : Q) : Qeq_bool x y = false <-> ~ (x == y)%Q.
Proof.
  split.
  - intros H E. apply Qeq_bool_iff in E. congruence.
  - intros H. destruct (Qeq_bool x y) eqn:E; [|done].
    apply Qeq_bool_iff in E. contradiction.
Qed.

Lemma Qle_bool_false (x y : Q) : Qle_bool x y = false <-> (y < x)%Q.
Proof.
  split.
  - intros H. apply Qnot_le_lt. intros Hle. apply Qle_bool_iff in Hle.
    congruence.
  - intros H. destruct (Qle_bool x y) eqn:E; [|done].
    apply Qle_bool_iff in E. exfalso. lra.
Qed.

(** Case analysis on every rational comparison of the goal. *)
Ltac compare_quantities :=
  repeat match goal with
  | |- context [Qeq_bool ?x ?y] =>
    let E := fresh "E" in
    destruct (Qeq_bool x y) eqn:E;
    [apply Qeq_bool_true in E | apply Qeq_bool_false in E]
  | |- context [Qle_bool ?x ?y] =>
    let E := fresh "E" in
    destruct (Qle_bool x y) eqn:E;
    [apply Qle_bool_iff in E | apply Qle_bool_false in E]
  end.

(** X1: for an item with [0 <= current] and [0 <= minimum < maximum], the
    [stockStatus] filter of the inventory list lets an item through under
    a status name exactly when the [stockStatus] virtual gives the item
    that status. *)
Theorem stockStatus_filter_agrees (item : Inventory) (s : StockStatus) :
  (0 <= current item)%Q ->
  (0 <= minimum item)%Q ->
  (minimum item < maximum item)%Q ->
  stockStatus_filter (StockStatus_name s) item = true <-> stockStatus item = s.
Proof.
  intros Hc Hmin Hmax.
  unfold stockStatus_filter, stockStatus, Qlt_bool.
  destruct s; cbn [StockStatus_name String.eqb Ascii.eqb Bool.eqb];
    cbv zeta; compare_quantities; cbn;
    split; intros H; try done; try discriminate; exfalso; lra.
Qed.

Lemma stockStatus_filter_agrees_witness :
  stockStatus_filter "low-stock"
    (mkInventory "Fertilizer" kg (mkQuantity 5 10 1000) None true
       (mkLowStockAlert true None)) = true.
Proof.
  apply (stockStatus_filter_agrees
           (mkInventory "Fertilizer" kg (mkQuantity 5 10 1000) None true
              (mkLowStockAlert true None)) low_stock).
  - cbn. lra.
  - cbn. lra.
  - cbn. lra.
  - reflexivity.
Defined.

(** X2: the agreement needs the thresholds in order.  An item that is not
    empty and whose quantity lies between a maximum and a larger or equal
    minimum is low on stock for the virtual, and the list shows it under
    "low-stock" and under "overstocked" alike. *)
Theorem stockStatus_filter_overlap (item : Inventory) :
  (0 < current item)%Q ->
  (maximum item <= current item)%Q ->
  (current item <= minimum item)%Q ->
  stockStatus item = low_stock /\
  stockStatus_filter "low-stock" item = true /\
  stockStatus_filter "overstocked" item = true.
Proof.
  intros Hpos Hmax Hmin.
  unfold stockStatus_filter, stockStatus, Qlt_bool.
  cbn [String.eqb Ascii.eqb Bool.eqb]. cbv zeta.
  compare_quantities; cbn; repeat split; try done; exfalso; lra.
Qed.

Lemma stockStatus_filter_overlap_witness :
  stockStatus_filter "overstocked"
    (mkInventory "Seeds" bag (mkQuantity 8 10 5) None true
       (mkLowStockAlert true None)) = true.
Proof.
  refine (proj2 (proj2 (stockStatus_filter_overlap
           (mkInventory "Seeds" bag (mkQuantity 8 10 5) None true
              (mkLowStockAlert true None)) _ _ _))); cbn; lra.
Defined.

(** ** Ledger requests that fail *)

Lemma ledger_step_not_found (op : LedgerRequest) (db : Db) :
  inventories db !! ledger_id op = None ->
  ledger_step op db
  = (db, mkResponse 404 false "Inventory item not found" None).
Proof.
  intros Hnone. destruct op as [rq|rq]; cbn [ledger_step ledger_id] in *.
  - unfold withdrawInventory, try_catch, withdrawInventory_body, await,
      Inventory_findById, query. cbn [fst snd]. by rewrite Hnone.
  - unfold restockInventory, try_catch, restockInventory_body, await,
      Inventory_findById, query. cbn [fst snd]. by rewrite Hnone.
Qed.

(** X3: a withdrawal or a restock of an item that is not stored answers
    404 "Inventory item not found" and leaves the database as it was. *)
Theorem ledger_missing_item (op : LedgerRequest) (db : Db) :
  inventories db !! ledger_id op = None ->
  res_status (snd (ledger_step op db)) = 404 /\
  res_success (snd (ledger_step op db)) = false /\
  res_message (snd (ledger_step op db)) = "Inventory item not found" /\
  fst (ledger_step op db) = db.
Proof. intros Hnone. by rewrite (ledger_step_not_found op db Hnone). Qed.

Lemma ledger_missing_item_witness :
  res_status (snd (ledger_step withdraw_from_2 ledger_demo_db)) = 404 /\
  fst (ledger_step withdraw_from_2 ledger_demo_db) = ledger_demo_db.
Proof.
  destruct (ledger_missing_item withdraw_from_2 ledger_demo_db)
    as (Hst & _ & _ & Hdb).
  - reflexivity.
  - split; [exact Hst | exact Hdb].
Defined.

(** X4: a restock by a negative amount that would take the quantity below
    zero is stopped by the schema's [min: 0] when the item is saved: the
    handler answers 500 and nothing is written. *)
Theorem restock_below_zero (rq : RestockRequest) (db : Db) (item : Inventory) :
  inventories db !! rr_id rq = Some item ->
  (current item + rr_quantity rq < 0)%Q ->
  restockInventory rq db
  = (db, mkResponse 500 false "Failed to restock inventory" None).
Proof.
  intros Hitem Hneg.
  pose proof (restockInventory_outcome rq db) as Hout.
  destruct (restockInventory rq db) as [db' res]. cbn [fst snd] in Hout.
  destruct Hout as [Hnone | it Hit _ | it Hit Hnn _ | it Hit Hnn _];
    same_item it item; try congruence; try done; exfalso; lra.
Qed.

Lemma restock_below_zero_witness :
  restockInventory restock_minus_31 ledger_demo_db
  = (ledger_demo_db, mkResponse 500 false "Failed to restock inventory" None).
Proof.
  apply (restock_below_zero restock_minus_31 ledger_demo_db
           (mkInventory "Fertilizer" kg (mkQuantity 30 10 1000) None true
              (mkLowStockAlert true None))).
  - reflexivity.
  - reflexivity.
Defined.


(** The bound is on code units, not on bytes: 259 characters of two bytes
    each fit the schema. *)
Example notes_of_two_byte_characters :
  let e_acute :=
    String (Ascii.ascii_of_nat 195)
      (String (Ascii.ascii_of_nat 169) EmptyString) in
  let notes := String.concat EmptyString (repeat e_acute 259) in
  String.length notes = 518%nat /\ String_length notes = 259%nat /\
  notes_ok (Some notes) = true.
Proof. cbv zeta. repeat split; vm_compute; reflexivity. Qed.


(** ** What a ledger request leaves alone *)

(** X6: whatever its outcome, a withdrawal or a restock writes to no
    collection but the inventory and its log (and the notices), it changes
    no item but the one it names, and it neither creates nor removes an
    item. *)
Theorem ledger_step_frame (op : LedgerRequest) (db : Db) :
  let db' := fst (ledger_step op db) in
  users db' = users db /\ clients db' = clients db /\
  sites db' = sites db /\ tasks db' = tasks db /\
  (forall j, j <> ledger_id op -> inventories db' !! j = inventories db !! j) /\
  (is_Some (inventories db' !! ledger_id op)
   <-> is_Some (inventories db !! ledger_id op)).
Proof.
  cbv zeta.
  assert (Hins : forall i x (m : gmap ObjectId Inventory),
            is_Some (m !! i) ->
            (forall j, j <> i -> <[i := x]> m !! j = m !! j) /\
            (is_Some (<[i := x]> m !! i) <-> is_Some (m !! i))).
  { intros i x m Hi. split.
    - intros j Hj. by rewrite lookup_insert_ne.
    - rewrite lookup_insert_eq. split; eauto. }
  destruct op as [rq|rq]; cbn [ledger_step ledger_id].
  - destruct (withdrawInventory_outcome rq db) as
      [Hnone | it Hit _ | it Hit Hle _ | it Hit Hle _ item' _
       | it aid adm Hit Hle _ item' _ _];
      cbn; repeat split; try done; try (by apply Hins); eauto;
      intros; by rewrite lookup_insert_eq.
  - destruct (restockInventory_outcome rq db) as
      [Hnone | it Hit _ | it Hit Hnn _ | it Hit Hnn _];
      cbn; repeat split; try done; try (by apply Hins); eauto;
      intros; by rewrite lookup_insert_eq.
Qed.

(** ** The log counts the successes *)

Lemma ledger_step_log (op : LedgerRequest) (db : Db) :
  (res_status (snd (ledger_step op db)) = 200 /\
   exists tx, transactions (fst (ledger_step op db)) = transactions db ++ [tx]
              /\ tx_inventory tx = ledger_id op) \/
  (res_status (snd (ledger_step op db)) <> 200 /\
   transactions (fst (ledger_step op db)) = transactions db).
Proof.
  destruct op as [rq|rq]; cbn [ledger_step ledger_id].
  - destruct (withdrawInventory_outcome rq db) as
      [Hnone | it Hit _ | it Hit Hle _ | it Hit Hle _ item' _
       | it aid adm Hit Hle _ item' _ _]; cbn;
      try (by right); left; (split; [done|]);
      by exists (withdrawal_record rq it).
  - destruct (restockInventory_outcome rq db) as
      [Hnone | it Hit _ | it Hit Hnn _ | it Hit Hnn _]; cbn;
      try (by right); left; (split; [done|]);
      by exists (restock_record rq it).
Qed.

Lemma records_of_app (i : ObjectId) (db : Db) l :
  List.filter (fun tx => Pos.eqb (tx_inventory tx) i) (transactions db ++ l)
  = records_of i db ++ List.filter (fun tx => Pos.eqb (tx_inventory tx) i) l.
Proof. unfold records_of. apply List.filter_app. Qed.

(** X7: over any sequence of withdrawals and restocks, failed ones
    included, the number of records that the log holds for an item grows
    by exactly the number of requests on that item that were answered
    200. *)
Theorem log_counts_successes
    (i : ObjectId) (ops : list LedgerRequest) (db : Db) :
  length (records_of i (ledger_final ops db))
  = (length (records_of i db) + successes i ops db)%nat.
Proof.
  revert db. induction ops as [|op ops IH]; intros db;
    cbn [ledger_final successes].
  - lia.
  - rewrite IH. cbv zeta.
    destruct (ledger_step_log op db) as [(Hok & tx & Htx & Hid) | (Hno & Htx)].
    + unfold records_of at 1. rewrite Htx, records_of_app. cbn [List.filter].
      rewrite Hid, Hok. cbn [Z.eqb Pos.eqb andb].
      rewrite andb_true_r.
      destruct (Pos.eqb (ledger_id op) i); rewrite length_app; cbn; lia.
    + unfold records_of at 1. rewrite Htx. fold (records_of i db).
      assert ((res_status (snd (ledger_step op db)) =? 200) = false) as ->
        by by apply Z.eqb_neq.
      rewrite andb_false_r. lia.
Qed.

(** ** When the low-stock notice is sent *)

Lemma findOne_active_admin_sound (db : Db) (a : ObjectId) (adm : User) :
  head (filter (fun p => is_active_admin (snd p) = true)
               (map_to_list (users db))) = Some (a, adm) ->
  users db !! a = Some adm /\ is_active_admin adm = true.
Proof.
  intros H. apply head_Some_elem_of in H.
  apply list_elem_of_filter in H as [Hact Hin].
  by apply elem_of_map_to_list in Hin.
Qed.

Lemma findOne_active_admin_complete (db : Db) :
  has_active_admin db ->
  exists a adm,
    head (filter (fun p => is_active_admin (snd p) = true)
                 (map_to_list (users db))) = Some (a, adm).
Proof.
  intros (id & u & Hu & Hact).
  destruct (head _) as [[a adm]|] eqn:Hhead; [by eauto|].
  apply head_None in Hhead.
  assert (Hin : (id, u) ∈ filter (fun p : ObjectId * User =>
                                    is_active_admin (snd p) = true)
                               (map_to_list (users db))).
  { apply list_elem_of_filter. split; [done|]. by apply elem_of_map_to_list. }
  rewrite Hhead in Hin. by apply not_elem_of_nil in Hin.
Qed.

(** X8: a withdrawal that goes through and leaves the item at or below
    its minimum, on an item whose alerts are enabled and whose last alert
    is missing or more than 24 hours old, sends one low-stock notice to an
    active administrator and stamps the item with the time of the request,
    provided that an active administrator exists. *)
Theorem low_stock_alert_sent
    (rq : WithdrawRequest) (db : Db) (item : Inventory) :
  inventories db !! wr_id rq = Some item ->
  (wr_quantity rq <= current item)%Q ->
  notes_ok (wr_notes rq) = true ->
  (current item - wr_quantity rq <= minimum item)%Q ->
  lsa_enabled (inv_lowStockAlert item) = true ->
  alert_due (lsa_lastAlertSent (inv_lowStockAlert item)) (wr_now rq) = true ->
  has_active_admin db ->
  let db' := fst (withdrawInventory rq db) in
  res_status (snd (withdrawInventory rq db)) = 200 /\
  last_alert db' (wr_id rq) = Some (wr_now rq) /\
  exists a adm, users db !! a = Some adm /\ is_active_admin adm = true /\
    notices db' = notices db ++ [LowStockNotice a (wr_id rq) (wr_now rq)].
Proof.
  intros Hitem Hle Hnotes Hlow Hen Hdue Hadm. cbv zeta.
  assert (Hwanted : alert_wanted
            (set_current item (current item - wr_quantity rq)) (wr_now rq)
          = true).
  { unfold alert_wanted. cbn. rewrite Hen, Hdue.
    by apply Qle_bool_iff in Hlow as ->. }
  destruct (findOne_active_admin_complete db Hadm) as (a0 & adm0 & Hhead).
  destruct (withdrawInventory_outcome rq db) as
    [Hnone | it Hit Hlt | it Hit _ Hn | it Hit _ _ item' [Hq|Hq]
     | it aid adm Hit _ _ item' _ Hfind];
    same_item it item; try congruence; try (exfalso; lra).
  - subst item'. congruence.
  - split; [done|]. unfold last_alert. cbn [inventories notices].
    rewrite lookup_insert_eq. split; [done|].
    destruct (findOne_active_admin_sound db aid adm Hfind) as [Hu Hact].
    by exists aid, adm.
Qed.

Lemma low_stock_alert_sent_witness :
  notices (fst (withdrawInventory
                  (mkWithdrawRequest 1 (mkAuthUser 9 admin) 25 None None 1000)
                  ledger_demo_db))
  = [LowStockNotice 9 1 1000].
Proof.
  destruct (low_stock_alert_sent
              (mkWithdrawRequest 1 (mkAuthUser 9 admin) 25 None None 1000)
              ledger_demo_db
              (mkInventory "Fertilizer" kg (mkQuantity 30 10 1000) None true
                 (mkLowStockAlert true None)))
    as (_ & _ & a & adm & _ & _ & Hn).
  - reflexivity.
  - cbn. lra.
  - reflexivity.
  - cbn. lra.
  - reflexivity.
  - reflexivity.
  - exists 9%positive, (mkUser admin true 0). split; reflexivity.
  - reflexivity.
Defined.

(** X9: without an active administrator the same withdrawal still goes
    through, but no notice is sent and [lastAlertSent] keeps its value, so
    the alert stays due. *)
Theorem low_stock_alert_skipped
    (rq : WithdrawRequest) (db : Db) (item : Inventory) :
  inventories db !! wr_id rq = Some item ->
  (wr_quantity rq <= current item)%Q ->
  notes_ok (wr_notes rq) = true ->
  ~ has_active_admin db ->
  let db' := fst (withdrawInventory rq db) in
  res_status (snd (withdrawInventory rq db)) = 200 /\
  notices db' = notices db /\
  last_alert db' (wr_id rq) = lsa_lastAlertSent (inv_lowStockAlert item).
Proof.
  intros Hitem Hle Hnotes Hnoadm. cbv zeta.
  destruct (withdrawInventory_outcome rq db) as
    [Hnone | it Hit Hlt | it Hit _ Hn | it Hit _ _ item' _
     | it aid adm Hit _ _ item' _ Hfind];
    same_item it item; try congruence; try (exfalso; lra).
  - repeat split. unfold last_alert. cbn [inventories].
    by rewrite lookup_insert_eq.
  - exfalso. apply Hnoadm.
    destruct (findOne_active_admin_sound db aid adm Hfind) as [Hu Hact].
    by exists aid, adm.
Qed.

Lemma low_stock_alert_skipped_witness :
  notices (fst (withdrawInventory
                  (mkWithdrawRequest 1 (mkAuthUser 9 worker) 1 None None 1000)
                  insufficient_db)) = [].
Proof.
  destruct (low_stock_alert_skipped
              (mkWithdrawRequest 1 (mkAuthUser 9 worker) 1 None None 1000)
              insufficient_db
              (mkInventory "Fertilizer" kg (mkQuantity 5 10 1000) None true
                 (mkLowStockAlert true None)))
    as (_ & Hn & _).
  - reflexivity.
  - cbn. lra.
  - reflexivity.
  - intros (id & u & Hu & _). vm_compute in Hu. discriminate Hu.
  - exact Hn.
Defined.

(** ** Withdrawing and putting back *)



(** ** Deleting an item *)

Lemma getInventoryItem_not_found (id : ObjectId) (db : Db) :
  inventories db !! id = None ->
  getInventoryItem id db
  = (db, mkResponse 404 false "Inventory item not found" None).
Proof.
  intros Hnone.
  unfold getInventoryItem, try_catch, getInventoryItem_body, await,
    Inventory_findById, query. cbn [fst snd]. by rewrite Hnone.
Qed.

Lemma deleteInventoryItem_not_found (id : ObjectId) (db : Db) :
  inventories db !! id = None ->
  deleteInventoryItem id db
  = (db, mkResponse 404 false "Inventory item not found" None).
Proof.
  intros Hnone.
  unfold deleteInventoryItem, try_catch, deleteInventoryItem_body, await,
    Inventory_findById, query. cbn [fst snd]. by rewrite Hnone.
Qed.

Lemma deleteInventoryItem_found (id : ObjectId) (db : Db) (item : Inventory) :
  inventories db !! id = Some item ->
  deleteInventoryItem id db
  = (with_inventories db (delete id (inventories db)),
     mkResponse 200 true "Inventory item deleted successfully" None).
Proof.
  intros Hitem.
  unfold deleteInventoryItem, try_catch, deleteInventoryItem_body, await,
    Inventory_findById, Inventory_deleteOne, query, update, ret.
  cbn [fst snd]. by rewrite Hitem.
Qed.

(** X11: deleting a stored item answers 200 and removes it; from then on
    reading it, withdrawing from it, restocking it and deleting it again
    all answer 404, while the records that the log holds for it stay. *)
Theorem deleteInventoryItem_removes (id : ObjectId) (db : Db) (item : Inventory) :
  inventories db !! id = Some item ->
  let db' := fst (deleteInventoryItem id db) in
  res_status (snd (deleteInventoryItem id db)) = 200 /\
  inventories db' !! id = None /\
  (forall j, j <> id -> inventories db' !! j = inventories db !! j) /\
  transactions db' = transactions db /\
  res_status (snd (getInventoryItem id db')) = 404 /\
  res_status (snd (deleteInventoryItem id db')) = 404 /\
  (forall op, ledger_id op = id ->
     res_status (snd (ledger_step op db')) = 404 /\ fst (ledger_step op db') = db').
Proof.
  intros Hitem. cbv zeta.
  rewrite (deleteInventoryItem_found id db item Hitem). cbn [fst snd].
  set (db' := with_inventories db (delete id (inventories db))).
  assert (Hgone : inventories db' !! id = None) by apply lookup_delete_eq.
  rewrite (getInventoryItem_not_found id db' Hgone).
  rewrite (deleteInventoryItem_not_found id db' Hgone).
  repeat split; try done.
  - intros j Hj. subst db'. cbn. by rewrite lookup_delete_ne.
  - rewrite <- H in Hgone. by rewrite (ledger_step_not_found op db' Hgone).
  - rewrite <- H in Hgone. by rewrite (ledger_step_not_found op db' Hgone).
Qed.

Lemma deleteInventoryItem_removes_witness :
  inventories (fst (deleteInventoryItem 1 ledger_demo_db)) !! 1%positive = None.
Proof.
  destruct (deleteInventoryItem_removes 1 ledger_demo_db
              (mkInventory "Fertilizer" kg (mkQuantity 30 10 1000) None true
                 (mkLowStockAlert true None))) as (_ & Hgone & _).
  - reflexivity.
  - exact Hgone.
Defined.

(** ** The history of an item *)

(** X12: the history that [getInventoryTransactions] returns for an item
    starts with the record of the last successful request on that item:
    a request answered 200 puts its record in front of the item's previous
    history and raises [count] by one; the histories of the other items,
    and every history after a request that was not answered 200, are
    unchanged. *)
Theorem history_newest_first (op : LedgerRequest) (db : Db) (j : ObjectId) :
  let db' := fst (ledger_step op db) in
  let before := snd (getInventoryTransactions j db) in
  let after := snd (getInventoryTransactions j db') in
  lr_count after = length (lr_data after) /\
  (res_status (snd (ledger_step op db)) = 200 -> j = ledger_id op ->
   exists tx, tx_inventory tx = j /\ tx_type tx = ledger_type op /\
     tx_quantity tx = ledger_quantity op /\
     lr_data after = tx :: lr_data before /\
     lr_count after = S (lr_count before)) /\
  (res_status (snd (ledger_step op db)) <> 200 \/ j <> ledger_id op ->
   lr_data after = lr_data before).
Proof.
  cbv zeta. unfold getInventoryTransactions. cbn [fst snd lr_count lr_data].
  unfold InventoryTransaction_find_newest_first.
  split; [done|]. split.
  - intros Hok ->.
    destruct (ledger_step_success op db Hok)
      as (item & item' & tx & _ & _ & _ & _ & Htx & Hid & Hty & Hq & _).
    exists tx. rewrite Htx, List.filter_app. cbn [List.filter].
    rewrite Hid, Pos.eqb_refl, rev_unit. cbn [length]. by repeat split.
  - intros Hcase.
    destruct (ledger_step_log op db) as [(Hok & tx & Htx & Hid) | (Hno & Htx)].
    + destruct Hcase as [Hno|Hne]; [done|].
      rewrite Htx, List.filter_app. cbn [List.filter]. rewrite Hid.
      destruct (Pos.eqb_spec (ledger_id op) j) as [E|_]; [by subst|].
      by rewrite app_nil_r.
    + by rewrite Htx.
Qed.

Lemma history_newest_first_witness :
  exists tx,
    lr_data (snd (getInventoryTransactions 1
                    (fst (ledger_step restock_10
                            (fst (ledger_step withdraw_25 ledger_demo_db))))))
    = tx :: lr_data (snd (getInventoryTransactions 1
                            (fst (ledger_step withdraw_25 ledger_demo_db))))
    /\ tx_type tx = restock_.
Proof.
  destruct (history_newest_first restock_10
              (fst (ledger_step withdraw_25 ledger_demo_db)) 1)
    as (_ & Hnew & _).
  destruct Hnew as (tx & _ & Hty & _ & Hdata & _).
  - reflexivity.
  - reflexivity.
  - exists tx. split; [exact Hdata | exact Hty].
Defined.

(** ** Starting and completing a task *)

Lemma startTask_by_assignee (rq : WorkerActionRequest) (db : Db) (task : Task) :
  tasks db !! wa_id rq = Some task ->
  t_worker task = Some (au_id (wa_user rq)) ->
  let task' :=
    Task_pre_save (set_started task (wa_coordinates rq) (wa_now rq)) in
  startTask rq db
  = (with_tasks db (<[wa_id rq := task']> (tasks db)),
     mkResponse 200 true "Task started successfully" (Some task')).
Proof.
  intros Htask Hw. cbv zeta.
  unfold startTask, try_catch, startTask_body, await, Task_findById, query.
  cbn [fst snd]. rewrite Htask, Hw. unfold worker_toString, ret.
  rewrite Pos.eqb_refl. cbn [negb].
  unfold Task_save, await, update, ret. by cbn [fst snd].
Qed.

Lemma completeTask_by_assignee
    (rq : WorkerActionRequest) (db : Db) (task : Task) :
  tasks db !! wa_id rq = Some task ->
  t_worker task = Some (au_id (wa_user rq)) ->
  let task' :=
    Task_pre_save (set_completed task (wa_coordinates rq) (wa_now rq)) in
  completeTask rq db
  = (with_tasks db (<[wa_id rq := task']> (tasks db)),
     mkResponse 200 true "Task completed successfully" (Some task')).
Proof.
  intros Htask Hw. cbv zeta.
  unfold completeTask, try_catch, completeTask_body, await, Task_findById,
    query.
  cbn [fst snd]. rewrite Htask, Hw. unfold worker_toString, ret.
  rewrite Pos.eqb_refl. cbn [negb].
  unfold Task_save, await, update, ret. by cbn [fst snd].
Qed.

Lemma pre_save_keeps_rest (t : Task) :
  t_startLocation (Task_pre_save t) = t_startLocation t /\
  t_endLocation (Task_pre_save t) = t_endLocation t /\
  t_materials (Task_pre_save t) = t_materials t /\
  cost_labor (t_cost (Task_pre_save t)) = cost_labor (t_cost t) /\
  cost_materials (t_cost (Task_pre_save t)) = cost_materials (t_cost t) /\
  cost_total (t_cost (Task_pre_save t))
  = (cost_labor (t_cost t) + cost_materials (t_cost t))%float.
Proof.
  unfold Task_pre_save.
  by destruct (t_startedAt t), (t_completedAt t).
Qed.

(** X13: only the worker that a task is assigned to may start or complete
    it.  Any other caller, an administrator included, is answered 403 "Not
    authorized"; on a task without a worker both handlers answer 500.
    Nothing is written in either case. *)
Theorem worker_action_refused
    (rq : WorkerActionRequest) (db : Db) (task : Task) :
  tasks db !! wa_id rq = Some task ->
  t_worker task <> Some (au_id (wa_user rq)) ->
  let expected :=
    match t_worker task with
    | Some _ => mkResponse 403 false "Not authorized" None
    | None => mkResponse 500 false "Server error" None
    end in
  startTask rq db = (db, expected) /\ completeTask rq db = (db, expected).
Proof.
  intros Htask Hw. cbv zeta.
  unfold startTask, completeTask, try_catch, startTask_body,
    completeTask_body, await, Task_findById, query.
  cbn [fst snd]. rewrite Htask. unfold worker_toString.
  destruct (t_worker task) as [w|]; [|done].
  unfold ret. destruct (Pos.eqb_spec w (au_id (wa_user rq))) as [->|Hne];
    [done|]. by cbn.
Qed.

Lemma worker_action_refused_witness :
  completeTask
    (mkWorkerActionRequest 1 the_admin (mkCoordinates None None) 9001000)
    running_db
  = (running_db, mkResponse 403 false "Not authorized" None).
Proof.
  refine (proj2 (worker_action_refused
    (mkWorkerActionRequest 1 the_admin (mkCoordinates None None) 9001000)
    running_db running_task _ _)).
  - reflexivity.
  - discriminate.
Defined.

(** X14: [startTask] does not look at the status of the task.  Whatever
    the status, the assigned worker's request answers 200 and stores the
    task as [in-progress], started at the time of the request and at the
    given coordinates; [completedAt] keeps its value, and when there is
    one the save hook computes the duration anew, in doubles, from the new
    start to it. *)
Theorem startTask_any_status
    (rq : WorkerActionRequest) (db : Db) (task : Task) :
  tasks db !! wa_id rq = Some task ->
  t_worker task = Some (au_id (wa_user rq)) ->
  let db' := fst (startTask rq db) in
  res_status (snd (startTask rq db)) = 200 /\
  (forall j, j <> wa_id rq -> tasks db' !! j = tasks db !! j) /\
  exists task', tasks db' !! wa_id rq = Some task' /\
    t_status task' = in_progress /\
    t_startedAt task' = Some (wa_now rq) /\
    t_startLocation task'
      = Some (mkLocation (wa_coordinates rq) (wa_now rq)) /\
    t_completedAt task' = t_completedAt task /\
    t_actualDuration task'
      = match t_completedAt task with
        | Some c => rounded_duration (wa_now rq) c
        | None => t_actualDuration task
        end.
Proof.
  intros Htask Hw. cbv zeta.
  rewrite (startTask_by_assignee rq db task Htask Hw). cbn [fst snd].
  unfold with_tasks. cbn [tasks]. split; [done|]. split.
  - intros j Hj. by rewrite lookup_insert_ne.
  - rewrite lookup_insert_eq. eexists. split; [reflexivity|].
    set (started := set_started task (wa_coordinates rq) (wa_now rq)).
    destruct (pre_save_keeps started) as (_ & -> & -> & -> & _).
    destruct (pre_save_keeps_rest started) as (-> & _).
    repeat split.
    destruct (t_completedAt task) as [c|] eqn:Hc.
    + by apply (pre_save_duration_present started (wa_now rq) c).
    + by rewrite (pre_save_duration_missing started (or_intror Hc)).
Qed.

Lemma startTask_any_status_witness :
  exists task',
    tasks (fst (startTask (start_by_worker_7 12601000) finished_db))
      !! 1%positive = Some task' /\
    t_status task' = in_progress /\
    t_actualDuration task' = (-1)%float.
Proof.
  destruct (startTask_any_status (start_by_worker_7 12601000) finished_db
              finished_task)
    as (_ & _ & task' & Ht & Hst & _ & _ & _ & Hdur).
  - reflexivity.
  - reflexivity.
  - exists task'. split; [exact Ht|]. split; [exact Hst|].
    rewrite Hdur. reflexivity.
Defined.

(** A finished task started again 18378 seconds after its completion: the
    hook stores [-5.11]. *)
Example rounded_duration_restart :
  rounded_duration 18378000 0 = (- (511 / 100))%float.
Proof. reflexivity. Qed.

(** X15: when the assigned worker starts a task at [t1] and completes it
    at [t2], the stored task is [completed] with these two time stamps and
    its [actualDuration] is the double that the save hook computes from
    them: [Math.round(h * 100) / 100] for the double [h] of the hours
    between the two, where [Math.round] gives the integer nearest to the
    (finite) double [h * 100], a tie going up. *)
Theorem start_then_complete
    (s c : WorkerActionRequest) (db : Db) (task : Task) :
  wa_id c = wa_id s ->
  au_id (wa_user c) = au_id (wa_user s) ->
  tasks db !! wa_id s = Some task ->
  t_worker task = Some (au_id (wa_user s)) ->
  let db1 := fst (startTask s db) in
  let db2 := fst (completeTask c db1) in
  let hundredths := (duration_hours (wa_now s) (wa_now c) * 100)%float in
  res_status (snd (startTask s db)) = 200 /\
  res_status (snd (completeTask c db1)) = 200 /\
  exists task2, tasks db2 !! wa_id s = Some task2 /\
    t_status task2 = completed /\
    t_startedAt task2 = Some (wa_now s) /\
    t_completedAt task2 = Some (wa_now c) /\
    t_actualDuration task2 = (Math_round hundredths / 100)%float /\
    (forall v, Number_value hundredths = Some v ->
       exists k : Z,
         (v - (1 # 2) < inject_Z k /\ inject_Z k <= v + (1 # 2))%Q /\
         integral_double (Math_round hundredths) k).
Proof.
  intros Hid Hu Htask Hw. cbv zeta.
  rewrite (startTask_by_assignee s db task Htask Hw). cbn [fst snd].
  set (task1 := Task_pre_save (set_started task (wa_coordinates s) (wa_now s))).
  set (db1 := with_tasks db (<[wa_id s := task1]> (tasks db))).
  assert (Htask1 : tasks db1 !! wa_id c = Some task1)
    by (rewrite Hid; apply lookup_insert_eq).
  assert (Hw1 : t_worker task1 = Some (au_id (wa_user c))).
  { subst task1.
    destruct (pre_save_keeps
                (set_started task (wa_coordinates s) (wa_now s))) as (-> & _).
    cbn. by rewrite Hu. }
  rewrite (completeTask_by_assignee c db1 task1 Htask1 Hw1). cbn [fst snd].
  split; [done|]. split; [done|].
  unfold with_tasks. cbn [tasks]. rewrite <- Hid, lookup_insert_eq.
  eexists. split; [reflexivity|].
  set (done_ := set_completed task1 (wa_coordinates c) (wa_now c)).
  assert (Hs1 : t_startedAt task1 = Some (wa_now s)).
  { subst task1.
    by destruct (pre_save_keeps
                   (set_started task (wa_coordinates s) (wa_now s)))
      as (_ & _ & -> & _). }
  assert (Hdur : t_actualDuration (Task_pre_save done_)
                 = rounded_duration (wa_now s) (wa_now c))
    by by apply pre_save_duration_present.
  destruct (pre_save_keeps done_) as (_ & -> & -> & -> & _).
  rewrite Hdur. repeat split; try done.
  apply Math_round_nearest.
Qed.

Lemma start_then_complete_witness :
  exists task2,
    tasks (fst (completeTask (complete_by_worker_7_at 523000)
                  (fst (startTask (start_by_worker_7 1000) assigned_db))))
      !! 1%positive = Some task2 /\
    t_actualDuration task2 = (14 / 100)%float.
Proof.
  destruct (start_then_complete (start_by_worker_7 1000)
              (complete_by_worker_7_at 523000) assigned_db task_of_worker_7)
    as (_ & _ & task2 & Ht & _ & _ & _ & Hdur & _).
  - reflexivity.
  - reflexivity.
  - reflexivity.
  - reflexivity.
  - exists task2. split; [exact Ht|]. rewrite Hdur. reflexivity.
Defined.

(** ** Completion through the generic update *)

Lemma may_update_passes (u : AuthUser) (task : Task) :
  may_update u task ->
  is_worker_role (au_role u) && worker_differs (t_worker task) (au_id u) = false.
Proof.
  intros [Hrole|Hw].
  - destruct (au_role u); try done.
  - rewrite Hw. cbn. rewrite Pos.eqb_refl. apply andb_false_r.
Qed.

Lemma may_update_refused (u : AuthUser) (task : Task) :
  ~ may_update u task ->
  is_worker_role (au_role u) && worker_differs (t_worker task) (au_id u) = true.
Proof.
  intros Hno. unfold may_update in Hno.
  destruct (au_role u) eqn:Hrole; try (exfalso; apply Hno; by left).
  cbn. destruct (t_worker task) as [w|]; [|done]. cbn.
  destruct (Pos.eqb_spec w (au_id u)) as [->|]; [|done].
  exfalso. apply Hno. by right.
Qed.

Lemma updateTask_completion_eq
    (rq : UpdateTaskRequest) (db : Db) (task : Task) :
  tasks db !! ut_id rq = Some task ->
  may_update (ut_user rq) task ->
  p_worker (ut_body rq) = None \/ is_Some (t_worker task) ->
  p_status (ut_body rq) = Some completed ->
  t_status task <> completed ->
  let body := patch_set_completedAt (ut_body rq) (ut_now rq) in
  let clients' :=
    alter (fun c => mkClient (c_totalTasks c) (c_completedTasks c + 1))
      (t_client task) (clients db) in
  let users' :=
    match t_worker task with
    | Some w =>
      alter (fun u => mkUser (u_role u) (u_isActive u) (u_completedTasks u + 1))
        w (users db)
    | None => users db
    end in
  let sites' :=
    match t_site task with
    | Some s =>
      alter (fun s => mkSite (s_totalTasks s) (s_completedTasks s + 1)
                        (Some (ut_now rq))) s (sites db)
    | None => sites db
    end in
  updateTask rq db
  = (mkDb (inventories db) (transactions db) users' clients' sites'
       (alter (apply_patch body) (ut_id rq) (tasks db)) (notices db),
     mkResponse 200 true "Task updated successfully"
       (Some (apply_patch body task))).
Proof.
  intros Htask Hmay Hnoassign Hst Hnot. cbv zeta.
  unfold updateTask, try_catch, updateTask_body, await, Task_findById, query.
  cbn [fst snd]. rewrite Htask, (may_update_passes _ _ Hmay).
  assert (Hbody :
    match p_worker (ut_body rq), t_worker task with
    | Some (Some _), None =>
      (fun db0 =>
         match deduct_materials (t_materials task) db0 with
         | (db', Returned _) => ret (patch_set_status (ut_body rq) assigned) db'
         | (db', Thrown msg) => (db', Thrown msg)
         end)
    | _, _ => ret (ut_body rq)
    end = ret (ut_body rq)).
  { destruct Hnoassign as [->|[w ->]]; [done|].
    by destruct (p_worker (ut_body rq)) as [[?|]|]. }
  rewrite Hbody. unfold ret. cbn beta iota. rewrite Hst.
  assert (Hneg : negb (is_completed (t_status task)) = true)
    by (destruct (t_status task); done).
  cbn [is_completed]. rewrite Hneg. cbn [andb].
  unfold Client_inc_completedTasks, User_inc_completedTasks,
    Site_inc_completedTasks, Task_findByIdAndUpdate, Task_findById, await,
    update, query, ret.
  destruct (t_worker task) as [w|], (t_site task) as [s|];
    cbn [fst snd]; unfold with_clients, with_users, with_sites, with_tasks;
    cbn [inventories transactions users clients sites tasks notices];
    by rewrite lookup_alter_eq, Htask.
Qed.

(** X16: an update that carries the status [completed], on a task that is
    not completed yet (and that the update does not assign), answers 200,
    stamps the task as completed at the time of the request, and raises by
    one the [completedTasks] of the task's client, of its worker and of
    its site, whose [lastVisit] becomes the time of the request.  The save
    hook does not run: [actualDuration] is not computed.  No notice is
    sent and the stock is not touched. *)
Theorem updateTask_completion
    (rq : UpdateTaskRequest) (db : Db) (task : Task) :
  tasks db !! ut_id rq = Some task ->
  may_update (ut_user rq) task ->
  p_worker (ut_body rq) = None \/ is_Some (t_worker task) ->
  p_status (ut_body rq) = Some completed ->
  t_status task <> completed ->
  let db' := fst (updateTask rq db) in
  res_status (snd (updateTask rq db)) = 200 /\
  (exists task', tasks db' !! ut_id rq = Some task' /\
     t_status task' = completed /\
     t_completedAt task' = Some (ut_now rq) /\
     t_actualDuration task'
       = or_else (p_actualDuration (ut_body rq)) (t_actualDuration task)) /\
  (forall c, clients db !! t_client task = Some c ->
     clients db' !! t_client task
     = Some (mkClient (c_totalTasks c) (c_completedTasks c + 1))) /\
  (forall w u, t_worker task = Some w -> users db !! w = Some u ->
     users db' !! w
     = Some (mkUser (u_role u) (u_isActive u) (u_completedTasks u + 1))) /\
  (forall s st, t_site task = Some s -> sites db !! s = Some st ->
     sites db' !! s
     = Some (mkSite (s_totalTasks st) (s_completedTasks st + 1)
               (Some (ut_now rq)))) /\
  inventories db' = inventories db /\ transactions db' = transactions db /\
  notices db' = notices db.
Proof.
  intros Htask Hmay Hnoassign Hst Hnot. cbv zeta.
  rewrite (updateTask_completion_eq rq db task Htask Hmay Hnoassign Hst Hnot).
  cbn [fst snd inventories transactions users clients sites tasks notices].
  split; [done|]. split.
  { rewrite lookup_alter_eq, Htask. eexists. split; [reflexivity|]. cbn.
    by rewrite Hst. }
  repeat split.
  - intros c Hc. by rewrite lookup_alter_eq, Hc.
  - intros w u Hw Hu. by rewrite Hw, lookup_alter_eq, Hu.
  - intros s st Hs Hsite. by rewrite Hs, lookup_alter_eq, Hsite.
Qed.

Lemma updateTask_completion_witness :
  clients (fst (updateTask complete_by_update running_db)) !! 3%positive
  = Some (mkClient 1 1).
Proof.
  destruct (updateTask_completion complete_by_update running_db running_task)
    as (_ & _ & Hc & _).
  - reflexivity.
  - right. reflexivity.
  - left. reflexivity.
  - reflexivity.
  - discriminate.
  - exact (Hc (mkClient 1 0) eq_refl).
Defined.

Lemma updateTask_steps (rq : UpdateTaskRequest) (db : Db) (task : Task) :
  tasks db !! ut_id rq = Some task ->
  updateTask rq db
  = if is_worker_role (au_role (ut_user rq))
       && worker_differs (t_worker task) (au_id (ut_user rq))
    then (db, mkResponse 403 false "Not authorized to update this task" None)
    else try_catch (await (updateTask_assign rq task)
                          (updateTask_finish rq task)) "Server error" db.
Proof.
  intros Htask.
  unfold updateTask, try_catch, updateTask_body, await at 1, Task_findById,
    query.
  cbn [fst snd]. rewrite Htask.
  by destruct (is_worker_role _ && worker_differs _ _).
Qed.

(** The last step on a task that is already completed: the update alone. *)
Lemma updateTask_finish_completed
    (rq : UpdateTaskRequest) (task : Task) (body : TaskPatch) (d : Db) :
  t_status task = completed ->
  updateTask_finish rq task body d
  = (with_tasks d (alter (apply_patch body) (ut_id rq) (tasks d)),
     Returned (mkResponse 200 true "Task updated successfully"
                 (apply_patch body <$> tasks d !! ut_id rq))).
Proof.
  intros Hst. unfold updateTask_finish. rewrite Hst.
  cbn [is_completed negb]. rewrite andb_false_r.
  unfold Task_findByIdAndUpdate, Task_findById, await, update, query, ret.
  cbn [fst snd]. unfold with_tasks. cbn [tasks].
  by rewrite lookup_alter_eq.
Qed.

Lemma updateTask_counters_kept
    (rq : UpdateTaskRequest) (db : Db) (task : Task) :
  tasks db !! ut_id rq = Some task ->
  t_status task = completed ->
  clients (fst (updateTask rq db)) = clients db /\
  users (fst (updateTask rq db)) = users db /\
  sites (fst (updateTask rq db)) = sites db /\
  notices (fst (updateTask rq db)) = notices db.
Proof.
  intros Htask Hst.
  assert (H : exists d r, updateTask rq db = (d, r) /\
            clients d = clients db /\ users d = users db /\
            sites d = sites db /\ notices d = notices db).
  { rewrite (updateTask_steps rq db task Htask).
    destruct (is_worker_role _ && worker_differs _ _);
      [by eexists _, _|].
    unfold try_catch, await, updateTask_assign.
    assert (Hplain : exists d r,
              (let (db', o) :=
                 let (db', o) := ret (ut_body rq) db in
                 match o with
                 | Returned a => updateTask_finish rq task a db'
                 | Thrown msg => (db', Thrown msg)
                 end in
               match o with
               | Returned r => (db', r)
               | Thrown _ => (db', mkResponse 500 false "Server error" None)
               end) = (d, r) /\
              clients d = clients db /\ users d = users db /\
              sites d = sites db /\ notices d = notices db).
    { unfold ret. cbn beta iota.
      rewrite updateTask_finish_completed by done. by eexists _, _. }
    destruct (p_worker (ut_body rq)) as [[w|]|], (t_worker task) as [w0|];
      try exact Hplain.
    destruct (deduct_materials_spec (t_materials task) db)
      as [(_ & Hu & Hc & Hs & _ & Hn) _].
    unfold await.
    destruct (deduct_materials (t_materials task) db) as [db1 [[]|msg]];
      cbn [fst snd] in *; [|by eexists _, _].
    unfold ret. cbn beta iota.
    rewrite updateTask_finish_completed by done.
    eexists _, _. split; [reflexivity|]. by cbn. }
  destruct H as (d & r & -> & H). exact H.
Qed.

(** X17: an update of a task whose stored status is [completed] counts
    nothing: whatever the caller and the body, it leaves the
    [completedTasks] counters of every client, worker and site as they
    were and sends no notice. *)
Theorem updateTask_counts_once
    (rq : UpdateTaskRequest) (db : Db) (task : Task) :
  tasks db !! ut_id rq = Some task ->
  t_status task = completed ->
  let db' := fst (updateTask rq db) in
  clients db' = clients db /\ users db' = users db /\ sites db' = sites db /\
  notices db' = notices db.
Proof. intros Htask Hst. by apply updateTask_counters_kept with task. Qed.

Lemma updateTask_counts_once_witness :
  clients (fst (updateTask complete_by_update finished_db)) = clients finished_db.
Proof.
  destruct (updateTask_counts_once complete_by_update finished_db finished_task)
    as (Hc & _).
  - reflexivity.
  - reflexivity.
  - exact Hc.
Defined.

(** X18: a completion made through [completeTask] is not counted, and the
    update that comes next does not count it either: right after the
    assigned worker has completed a task, an update of that task, whatever
    its body, leaves every [completedTasks] counter at the value it had
    before the completion. *)
Theorem completeTask_then_update_uncounted
    (c : WorkerActionRequest) (u : UpdateTaskRequest) (db : Db) (task : Task) :
  ut_id u = wa_id c ->
  tasks db !! wa_id c = Some task ->
  t_worker task = Some (au_id (wa_user c)) ->
  let db1 := fst (completeTask c db) in
  let db2 := fst (updateTask u db1) in
  res_status (snd (completeTask c db)) = 200 /\
  clients db2 = clients db /\ users db2 = users db /\ sites db2 = sites db.
Proof.
  intros Hid Htask Hw. cbv zeta.
  destruct (completeTask_by_worker c db task Htask Hw)
    as (Hok & task1 & Htask1 & Hst1 & _).
  destruct (completeTask_frame c db) as (Hc & Hu & Hs & _).
  rewrite <- Hid in Htask1.
  destruct (updateTask_counters_kept u (fst (completeTask c db)) task1
              Htask1 Hst1) as (Hc2 & Hu2 & Hs2 & _).
  split; [done|]. by rewrite Hc2, Hu2, Hs2.
Qed.

Lemma completeTask_then_update_uncounted_witness :
  clients (fst (updateTask complete_by_update
                  (fst (completeTask complete_by_worker_7 running_db))))
  !! 3%positive = Some (mkClient 1 0).
Proof.
  destruct (completeTask_then_update_uncounted complete_by_worker_7
              complete_by_update running_db running_task)
    as (_ & Hc & _).
  - reflexivity.
  - reflexivity.
  - reflexivity.
  - rewrite Hc. reflexivity.
Defined.

(** ** Assigning again, and deductions that fail *)

Lemma updateTask_finish_spec
    (rq : UpdateTaskRequest) (task : Task) (body : TaskPatch) (d : Db) :
  tasks d !! ut_id rq = Some task ->
  exists d' body',
    updateTask_finish rq task body d
    = (d', Returned (mkResponse 200 true "Task updated successfully"
                       (Some (apply_patch body' task)))) /\
    inventories d' = inventories d /\ transactions d' = transactions d /\
    notices d' = notices d /\
    tasks d' = alter (apply_patch body') (ut_id rq) (tasks d) /\
    p_worker body' = p_worker body /\ p_status body' = p_status body.
Proof.
  intros Htask. unfold updateTask_finish.
  destruct (_ && _).
  - unfold Client_inc_completedTasks, User_inc_completedTasks,
      Site_inc_completedTasks, Task_findByIdAndUpdate, Task_findById, await,
      update, query, ret.
    exists
      (mkDb (inventories d) (transactions d)
         (match t_worker task with
          | Some w =>
            alter (fun u => mkUser (u_role u) (u_isActive u)
                              (u_completedTasks u + 1)) w (users d)
          | None => users d
          end)
         (alter (fun c => mkClient (c_totalTasks c) (c_completedTasks c + 1))
            (t_client task) (clients d))
         (match t_site task with
          | Some s =>
            alter (fun s => mkSite (s_totalTasks s) (s_completedTasks s + 1)
                              (Some (ut_now rq))) s (sites d)
          | None => sites d
          end)
         (alter (apply_patch (patch_set_completedAt body (ut_now rq)))
            (ut_id rq) (tasks d))
         (notices d)),
      (patch_set_completedAt body (ut_now rq)).
    split; [|done].
    destruct (t_worker task), (t_site task); cbn [fst snd];
      unfold with_clients, with_users, with_sites, with_tasks;
      cbn [inventories transactions users clients sites tasks notices];
      by rewrite lookup_alter_eq, Htask.
  - unfold Task_findByIdAndUpdate, Task_findById, await, update, query, ret.
    cbn [fst snd]. unfold with_tasks. cbn [tasks].
    rewrite lookup_alter_eq, Htask.
    by eexists _, body.
Qed.

(** X19: an update that names a worker, on a task that already has one,
    deducts nothing: the stock and the log are as they were, the request
    is answered 200 and the task goes to the new worker without being
    refused; its status is the one of the body, if any, and is not set to
    [assigned]. *)
Theorem updateTask_reassign
    (rq : UpdateTaskRequest) (db : Db) (task : Task) (w0 w : ObjectId) :
  tasks db !! ut_id rq = Some task ->
  t_worker task = Some w0 ->
  p_worker (ut_body rq) = Some (Some w) ->
  may_update (ut_user rq) task ->
  let db' := fst (updateTask rq db) in
  res_status (snd (updateTask rq db)) = 200 /\
  inventories db' = inventories db /\ transactions db' = transactions db /\
  exists task', tasks db' !! ut_id rq = Some task' /\
    t_worker task' = Some w /\
    t_status task' = or_else (p_status (ut_body rq)) (t_status task) /\
    t_materials task' = t_materials task.
Proof.
  intros Htask Hw0 Hw Hmay. cbv zeta.
  rewrite (updateTask_steps rq db task Htask), (may_update_passes _ _ Hmay).
  unfold try_catch, await, updateTask_assign. rewrite Hw, Hw0.
  unfold ret. cbn beta iota.
  destruct (updateTask_finish_spec rq task (ut_body rq) db Htask)
    as (d' & body' & -> & Hinv & Htx & _ & Htasks & Hbw & Hbs).
  cbn [fst snd]. repeat split; try done.
  rewrite Htasks, lookup_alter_eq, Htask. eexists. split; [reflexivity|].
  cbn. by rewrite Hbw, Hbs, Hw.
Qed.

Lemma updateTask_reassign_witness :
  inventories
    (fst (updateTask
            (mkUpdateTaskRequest 1 the_admin
               (mkTaskPatch (Some (Some 8%positive)) None None None) 50)
            assigned_db))
  = inventories assigned_db.
Proof.
  destruct (updateTask_reassign
              (mkUpdateTaskRequest 1 the_admin
                 (mkTaskPatch (Some (Some 8%positive)) None None None) 50)
              assigned_db task_of_worker_7 7%positive 8%positive)
    as (_ & Hinv & _).
  - reflexivity.
  - reflexivity.
  - reflexivity.
  - left. discriminate.
  - exact Hinv.
Defined.




(** ** Requests that are refused *)

(** X21: a caller of role [worker] may update only a task whose worker he
    is.  On any other task, one without worker included, the update is
    answered 403 and nothing is written: a worker cannot take a task by
    updating it. *)
Theorem updateTask_forbidden
    (rq : UpdateTaskRequest) (db : Db) (task : Task) :
  tasks db !! ut_id rq = Some task ->
  au_role (ut_user rq) = worker ->
  t_worker task <> Some (au_id (ut_user rq)) ->
  updateTask rq db
  = (db, mkResponse 403 false "Not authorized to update this task" None).
Proof.
  intros Htask Hrole Hw.
  rewrite (updateTask_steps rq db task Htask).
  rewrite may_update_refused; [done|].
  intros [H|H]; congruence.
Qed.

Lemma updateTask_forbidden_witness :
  updateTask (update_by worker_8 (mkTaskPatch (Some (Some 8%positive)) None None None))
    task_demo_db
  = (task_demo_db,
     mkResponse 403 false "Not authorized to update this task" None).
Proof.
  apply (updateTask_forbidden
           (update_by worker_8 (mkTaskPatch (Some (Some 8%positive)) None None None))
           task_demo_db open_task).
  - reflexivity.
  - reflexivity.
  - discriminate.
Defined.

(** X22: on a task that is not stored, the five handlers that take a task
    id answer 404 "Task not found" and write nothing. *)
Theorem task_not_found
    (id : ObjectId) (db : Db)
    (u : UpdateTaskRequest) (w : WorkerActionRequest) (a : AssignTaskRequest) :
  tasks db !! id = None ->
  ut_id u = id -> wa_id w = id -> at_id a = id ->
  let expected := (db, mkResponse 404 false "Task not found" None) in
  updateTask u db = expected /\ startTask w db = expected /\
  completeTask w db = expected /\ assignTask a db = expected /\
  deleteTask id db = expected.
Proof.
  intros Hnone <- Hw Ha. cbv zeta.
  unfold updateTask, startTask, completeTask, assignTask, deleteTask,
    try_catch, updateTask_body, startTask_body, completeTask_body,
    assignTask_body, deleteTask_body, await, Task_findById, query.
  cbn [fst snd]. by rewrite Hw, Ha, Hnone.
Qed.

Lemma task_not_found_witness :
  deleteTask 2 task_demo_db
  = (task_demo_db, mkResponse 404 false "Task not found" None).
Proof.
  refine (proj2 (proj2 (proj2 (proj2
    (task_not_found 2 task_demo_db
       (mkUpdateTaskRequest 2 the_admin no_patch 0)
       (mkWorkerActionRequest 2 worker_7 (mkCoordinates None None) 0)
       (mkAssignTaskRequest 2 the_admin None 0) _ _ _ _))))); reflexivity.
Defined.

(** X23: [assignTask] assigns to workers only.  When the body has no
    [workerId], or the id names no stored user, or that user is not of
    role [worker], the handler answers 404 "Worker not found" and the task
    is not touched. *)
Theorem assignTask_worker_not_found
    (rq : AssignTaskRequest) (db : Db) (task : Task) :
  tasks db !! at_id rq = Some task ->
  (forall w u, at_workerId rq = Some w -> users db !! w = Some u ->
     u_role u <> worker) ->
  assignTask rq db = (db, mkResponse 404 false "Worker not found" None).
Proof.
  intros Htask Hno.
  unfold assignTask, try_catch, assignTask_body, await, Task_findById,
    User_findById, query.
  cbn [fst snd]. rewrite Htask.
  destruct (at_workerId rq) as [w|]; [|done].
  destruct (users db !! w) as [u|] eqn:Hu; [|done].
  specialize (Hno w u eq_refl Hu).
  by destruct (u_role u).
Qed.

Lemma assignTask_worker_not_found_witness :
  assignTask (assign_to 9) task_demo_db
  = (task_demo_db, mkResponse 404 false "Worker not found" None).
Proof.
  apply (assignTask_worker_not_found (assign_to 9) task_demo_db open_task).
  - reflexivity.
  - intros w u Hw Hu. inversion Hw; subst w. vm_compute in Hu.
    inversion Hu; subst u. discriminate.
Defined.

(** ** Deleting a task *)

(** X24: deleting a stored task answers 200 and removes that task alone.
    Nothing else is written: the task counters of its client and site
    stay as they were, and stock deducted for its materials is not put
    back. *)
Theorem deleteTask_removes (id : ObjectId) (db : Db) (task : Task) :
  tasks db !! id = Some task ->
  let db' := fst (deleteTask id db) in
  res_status (snd (deleteTask id db)) = 200 /\
  tasks db' !! id = None /\
  (forall j, j <> id -> tasks db' !! j = tasks db !! j) /\
  clients db' = clients db /\ sites db' = sites db /\ users db' = users db /\
  inventories db' = inventories db /\ transactions db' = transactions db.
Proof.
  intros Htask. cbv zeta.
  unfold deleteTask, try_catch, deleteTask_body, await, Task_findById,
    Task_deleteOne, query, update, ret.
  cbn [fst snd]. rewrite Htask. cbn [fst snd]. unfold with_tasks.
  cbn [inventories transactions users clients sites tasks notices].
  repeat split.
  - apply lookup_delete_eq.
  - intros j Hj. by rewrite lookup_delete_ne.
Qed.

Lemma deleteTask_removes_witness :
  tasks (fst (deleteTask 1 task_demo_db)) !! 1%positive = None /\
  clients (fst (deleteTask 1 task_demo_db)) !! 3%positive
  = Some (mkClient 1 0).
Proof.
  destruct (deleteTask_removes 1 task_demo_db open_task)
    as (_ & Hgone & _ & Hc & _).
  - reflexivity.
  - split; [exact Hgone|]. rewrite Hc. reflexivity.
Defined.

(** ** The cost of a saved task *)

(** X25: the two worker actions save the task, and the save recomputes
    the total cost: after the assigned worker has started or completed a
    task, its stored [cost.total] is the double sum of its [cost.labor] and
    [cost.materials], which are the ones it had. *)
Theorem worker_action_recomputes_cost
    (rq : WorkerActionRequest) (db : Db) (task : Task) :
  tasks db !! wa_id rq = Some task ->
  t_worker task = Some (au_id (wa_user rq)) ->
  forall db', db' = fst (startTask rq db) \/ db' = fst (completeTask rq db) ->
  exists task', tasks db' !! wa_id rq = Some task' /\
    cost_labor (t_cost task') = cost_labor (t_cost task) /\
    cost_materials (t_cost task') = cost_materials (t_cost task) /\
    cost_total (t_cost task')
    = (cost_labor (t_cost task) + cost_materials (t_cost task))%float.
Proof.
  intros Htask Hw db' [->| ->].
  - rewrite (startTask_by_assignee rq db task Htask Hw). cbn [fst snd].
    unfold with_tasks. cbn [tasks]. rewrite lookup_insert_eq.
    eexists. split; [reflexivity|].
    by destruct (pre_save_keeps_rest
                   (set_started task (wa_coordinates rq) (wa_now rq)))
      as (_ & _ & _ & -> & -> & ->).
  - rewrite (completeTask_by_assignee rq db task Htask Hw). cbn [fst snd].
    unfold with_tasks. cbn [tasks]. rewrite lookup_insert_eq.
    eexists. split; [reflexivity|].
    by destruct (pre_save_keeps_rest
                   (set_completed task (wa_coordinates rq) (wa_now rq)))
      as (_ & _ & _ & -> & -> & ->).
Qed.

Lemma worker_action_recomputes_cost_witness :
  exists task',
    tasks (fst (startTask (start_by_worker_7 1000) costly_db)) !! 1%positive
    = Some task' /\ cost_total (t_cost task') = 50%float.
Proof.
  destruct (worker_action_recomputes_cost (start_by_worker_7 1000) costly_db
              costly_task eq_refl eq_refl
              (fst (startTask (start_by_worker_7 1000) costly_db))
              (or_introl eq_refl))
    as (task' & Ht & _ & _ & Htotal).
  exists task'. split; [exact Ht|]. rewrite Htotal. reflexivity.
Defined.

(** ** Routes *)

Lemma protect_refuses {A} (b : Bearer) (db : Db) :
  b = NoToken \/ b = BadToken \/
  (exists id, b = Token (UserToken id) /\
     (users db !! id = None \/
      exists u, users db !! id = Some u /\ u_isActive u = false)) ->
  exists r : Response A, protect b db = inl r /\ res_status r = 401.
Proof.
  intros [->|[->|(id & -> & [Hnone|(u & Hu & Hact)])]]; cbn.
  - by eexists.
  - by eexists.
  - rewrite Hnone. by eexists.
  - rewrite Hu, Hact. by eexists.
Qed.

(** X26: a request without a bearer token, with a token that does not
    verify, or with the token of a user that is not stored or has been
    deactivated is answered 401 on every route, before any handler runs:
    nothing is written. *)
Theorem unauthenticated_refused {A}
    (roles : list Role) (handler : AuthUser -> Db -> Db * Response A)
    (without_user : Db -> Db * Response A) (b : Bearer) (db : Db) :
  b = NoToken \/ b = BadToken \/
  (exists id, b = Token (UserToken id) /\
     (users db !! id = None \/
      exists u, users db !! id = Some u /\ u_isActive u = false)) ->
  fst (guarded roles handler b db) = db /\
  res_status (snd (guarded roles handler b db)) = 401 /\
  fst (protected handler without_user b db) = db /\
  res_status (snd (protected handler without_user b db)) = 401.
Proof.
  intros Hb. destruct (protect_refuses (A:=A) b db Hb) as (r & Hr & Hst).
  unfold guarded, protected. by rewrite Hr.
Qed.

Lemma unauthenticated_refused_witness :
  fst (route_completeTask (token_of 7) complete_by_worker_7 deactivated_db)
  = deactivated_db /\
  res_status
    (snd (route_completeTask (token_of 7) complete_by_worker_7 deactivated_db))
  = 401.
Proof.
  destruct (unauthenticated_refused [admin]
              (fun u => completeTask (wa_with_user complete_by_worker_7 u))
              (task_handler_without_user 1)
              (token_of 7) deactivated_db)
    as (_ & _ & Hdb & Hst).
  - right. right. exists 7%positive. split; [reflexivity|].
    right. exists (mkUser worker false 0). split; reflexivity.
  - split; [exact Hdb | exact Hst].
Defined.

Lemma Role_eqb_eq (r1 r2 : Role) : Role_eqb r1 r2 = true <-> r1 = r2.
Proof. destruct r1, r2; cbn; split; congruence. Qed.


Lemma authorize_refuse {A} (roles : list Role) (u : AuthUser) :
  ~ In (au_role u) roles ->
  exists r : Response A,
    authorize roles (UserPrincipal u) = inl r /\ res_status r = 403.
Proof.
  intros Hnot. unfold authorize.
  assert (existsb (Role_eqb (au_role u)) roles = false) as ->.
  { destruct (existsb _ _) eqn:E; [|done].
    apply existsb_exists in E as (r & Hin & Heq).
    apply Role_eqb_eq in Heq. subst r. contradiction. }
  by eexists.
Qed.

Lemma unauthorized_refused_helper {A}
    (roles : list Role) (handler : AuthUser -> Db -> Db * Response A)
    (id : ObjectId) (u : User) (db : Db) :
  users db !! id = Some u -> u_isActive u = true -> ~ In (u_role u) roles ->
  fst (guarded roles handler (Token (UserToken id)) db) = db /\
  res_status (snd (guarded roles handler (Token (UserToken id)) db)) = 403.
Proof.
  intros Hu Hact Hrole. unfold guarded. cbn [protect].
  rewrite Hu, Hact. cbn [negb].
  destruct (authorize_refuse (A:=A) roles (mkAuthUser id (u_role u)) Hrole)
    as (r & -> & Hst).
  done.
Qed.

(** X27: a route guarded by [authorize] answers 403 to a client token and
    to an active user whose stored role is not among the roles of the
    route; the handler does not run and nothing is written.  The role
    that counts is the one stored for the user at the time of the
    request. *)
Theorem unauthorized_refused {A}
    (roles : list Role) (handler : AuthUser -> Db -> Db * Response A)
    (b : Bearer) (db : Db) :
  (exists c t, b = Token (ClientToken c t)) \/
  (exists id u, b = Token (UserToken id) /\ users db !! id = Some u /\
     u_isActive u = true /\ ~ In (u_role u) roles) ->
  fst (guarded roles handler b db) = db /\
  res_status (snd (guarded roles handler b db)) = 403.
Proof.
  intros [(c & t & ->)|(id & u & -> & Hu & Hact & Hrole)].
  - by cbn.
  - by apply unauthorized_refused_helper with u.
Qed.

Lemma unauthorized_refused_witness :
  fst (route_restock (token_of 7) restock_7 task_demo_db) = task_demo_db /\
  res_status (snd (route_restock (token_of 7) restock_7 task_demo_db)) = 403.
Proof.
  apply (unauthorized_refused [admin]
           (fun u => restockInventory (rr_with_user restock_7 u))
           (token_of 7) task_demo_db).
  right. exists 7%positive, (mkUser worker true 0).
  split; [reflexivity|]. split; [reflexivity|]. split; [reflexivity|].
  cbn. intros [H|[]]. discriminate H.
Defined.




(** The update, start and complete routes have no [authorize], so a
    client token reaches their handlers, which then run without
    [req.user]: 404 when the task is not stored, 500 otherwise. *)
Lemma client_token_on_task_routes
    (c t : ObjectId) (u : UpdateTaskRequest) (w : WorkerActionRequest)
    (db : Db) :
  let b := Token (ClientToken c t) in
  let answer (id : ObjectId) :=
    match tasks db !! id with
    | Some _ => mkResponse 500 false "Server error" None
    | None => mkResponse 404 false "Task not found" None
    end in
  route_updateTask b u db = (db, answer (ut_id u)) /\
  route_startTask b w db = (db, answer (wa_id w)) /\
  route_completeTask b w db = (db, answer (wa_id w)).
Proof.
  cbv zeta.
  unfold route_updateTask, route_startTask, route_completeTask, protected,
    task_handler_without_user, try_catch, await, Task_findById, query.
  cbn [protect fst snd].
  by destruct (tasks db !! ut_id u), (tasks db !! wa_id w).
Qed.

(** ** Updates after an assignment *)

Lemma updateTask_stock_kept (rq : UpdateTaskRequest) (db : Db) (task : Task) :
  tasks db !! ut_id rq = Some task ->
  is_Some (t_worker task) ->
  inventories (fst (updateTask rq db)) = inventories db /\
  transactions (fst (updateTask rq db)) = transactions db.
Proof.
  intros Htask [w0 Hw0].
  rewrite (updateTask_steps rq db task Htask).
  destruct (is_worker_role _ && worker_differs _ _); [done|].
  unfold try_catch, await, updateTask_assign. rewrite Hw0.
  destruct (updateTask_finish_spec rq task (ut_body rq) db Htask)
    as (d' & body' & Hfin & Hinv & Htx & _).
  destruct (p_worker (ut_body rq)) as [[w|]|];
    unfold ret; cbn beta iota; by rewrite Hfin.
Qed.

(** X29: the update that gives a task its first worker deducts its
    materials, and the update that comes next deducts nothing: right after
    an assigning update that succeeded, an update of the task, whatever
    the caller and the body, leaves the stock and the log as that first
    update left them. *)
Theorem update_after_assignment_keeps_stock
    (u1 u2 : UpdateTaskRequest) (db : Db) (task : Task) (w : ObjectId) :
  ut_id u2 = ut_id u1 ->
  tasks db !! ut_id u1 = Some task ->
  t_worker task = None ->
  p_worker (ut_body u1) = Some (Some w) ->
  successful (snd (updateTask u1 db)) ->
  let db1 := fst (updateTask u1 db) in
  inventories (fst (updateTask u2 db1)) = inventories db1 /\
  transactions (fst (updateTask u2 db1)) = transactions db1.
Proof.
  intros Hid Htask Hnone Hw Hok. cbv zeta.
  destruct (updateTask_assign_deducts u1 db task w Htask Hnone Hw)
    as [_ Hdone].
  destruct (Hdone Hok) as [(task1 & Htask1 & Hw1 & _) _].
  rewrite <- Hid in Htask1.
  apply updateTask_stock_kept with task1; [done|by eexists].
Qed.

Lemma update_after_assignment_keeps_stock_witness :
  inventories
    (fst (updateTask unassign_by_update
            (fst (updateTask assign_by_update task_demo_db))))
  = inventories (fst (updateTask assign_by_update task_demo_db)).
Proof.
  destruct (update_after_assignment_keeps_stock assign_by_update
              unassign_by_update task_demo_db open_task 7%positive)
    as [Hinv _].
  - reflexivity.
  - reflexivity.
  - reflexivity.
  - reflexivity.
  - reflexivity.
  - exact Hinv.
Defined.



